(** * datasetsAnnotator.py: the descriptor annotation script

    A shallow embedding of [src/python/datasetsAnnotator.py] and the
    properties of its Create and Repair paths.  The script walks a catalog
    of dataset records and, for each dataset directory found on disk,
    either creates [dataset.json] or re-checks the [download_info] of the
    one that is there. *)

From Stdlib Require Import ZArith Lia Ascii String.
From Stdlib Require Import Floats.SpecFloat.
From stdpp Require Import base strings gmap list fin_maps.

Local Open Scope Z_scope.
Local Open Scope string_scope.

(** ** Values

    What [json.load] builds: [None], booleans, integers, floats, strings,
    lists and dictionaries keyed by strings.  Python integers are
    unbounded, hence [Z].  A float is kept as the IEEE value it denotes.
    A dictionary is a finite map: two dictionaries with the same items
    are the same document, whatever the order their keys were added in.
    A character of a [string] stands for one code point. *)
#[local] Unset Elimination Schemes.
Inductive JSON : Type :=
  | JNull
  | JBool (b : bool)
  | JInt (z : Z)
  | JFloat (f : spec_float)
  | JStr (s : string)
  | JList (l : list JSON)
  | JDict (d : gmap string JSON).
#[local] Set Elimination Schemes.

(** ** Exceptions *)
Inductive exn : Type :=
  | KeyError (k : string)
  | TypeError
  | FileNotFoundError
  | NotADirectoryError
  | IsADirectoryError
  | JSONDecodeError.

(** ** Python's operators on these values *)
Module Py.

(** [x == k] for a string literal [k]: only a string equals a string. *)
Definition eq_str (k : string) (x : JSON) : bool :=
  match x with
  | JStr s => bool_decide (s = k)
  | _ => false
  end.

Fixpoint substring (k s : string) : bool :=
  String.prefix k s ||
  match s with
  | EmptyString => false
  | String _ s' => substring k s'
  end.

(** [k in v]: key test on a dictionary, element test on a list,
    substring test on a string; the other values are not containers. *)
Definition contains (k : string) (v : JSON) : exn + bool :=
  match v with
  | JDict d => inr (bool_decide (is_Some (d !! k)))
  | JList l => inr (existsb (eq_str k) l)
  | JStr s => inr (substring k s)
  | _ => inl TypeError
  end.

(** [v[k]] with a string [k]: only a dictionary takes a string index. *)
Definition getitem (v : JSON) (k : string) : exn + JSON :=
  match v with
  | JDict d =>
      match d !! k with
      | Some x => inr x
      | None => inl (KeyError k)
      end
  | _ => inl TypeError
  end.

(** [v[k] = x] *)
Definition setitem (v : JSON) (k : string) (x : JSON) : exn + JSON :=
  match v with
  | JDict d => inr (JDict (<[k := x]> d))
  | _ => inl TypeError
  end.

(** [del v[k]] *)
Definition delitem (v : JSON) (k : string) : exn + JSON :=
  match v with
  | JDict d =>
      match d !! k with
      | Some _ => inr (JDict (delete k d))
      | None => inl (KeyError k)
      end
  | _ => inl TypeError
  end.

(** [len(v)] *)
Definition len (v : JSON) : exn + Z :=
  match v with
  | JList l => inr (Z.of_nat (length l))
  | JDict d => inr (Z.of_nat (size d))
  | JStr s => inr (Z.of_nat (String.length s))
  | _ => inl TypeError
  end.

(** [s + v] for a string [s] *)
Definition add_str (s : string) (v : JSON) : exn + string :=
  match v with
  | JStr t => inr (s ++ t)
  | _ => inl TypeError
  end.

(** A float against an integer; Python compares the two exactly. *)
Definition float_lt_int (f : spec_float) (n : Z) : bool :=
  match f with
  | S754_zero _ => (0 <? n)%Z
  | S754_infinity s => s
  | S754_nan => false
  | S754_finite s m e =>
      let v := if s then Z.neg m else Z.pos m in
      if (0 <=? e)%Z then (v * 2 ^ e <? n)%Z else (v <? n * 2 ^ (- e))%Z
  end.

(** [v < n] for an integer [n]; [True] and [False] count as 1 and 0. *)
Definition lt_int (v : JSON) (n : Z) : exn + bool :=
  match v with
  | JInt z => inr (z <? n)%Z
  | JBool b => inr ((if b then 1 else 0) <? n)%Z
  | JFloat f => inr (float_lt_int f n)
  | _ => inl TypeError
  end.

(** What a [for] loop runs over.  The keys of a dictionary come in an
    order this model does not keep. *)
Definition iter (v : JSON) : exn + list JSON :=
  match v with
  | JList l => inr l
  | JDict d => inr ((λ kv, JStr kv.1) <$> map_to_list d)
  | JStr s => inr ((λ c, JStr (String c EmptyString)) <$> String.list_ascii_of_string s)
  | _ => inl TypeError
  end.

End Py.

(** ** The world the script runs in

    Directories and regular files by path, and the trace of what the run
    has printed and written.  Paths are plain names: no [..], no links.
    The content of a file is the document [json.load] reads from it, when
    it reads one. *)
Inductive file_content : Type :=
  | Document (doc : JSON)
  | Unparsable.

Inductive event : Type :=
  | Printed (line : string)
  | Written (path : string) (doc : JSON).

Record World : Type := mkWorld {
  dirs : gset string;
  files : gmap string file_content;
  trace : list event
}.

Fixpoint strip_prefix (pre s : string) : option string :=
  match pre, s with
  | EmptyString, _ => Some s
  | String a pre', String b s' =>
      if Ascii.eqb a b then strip_prefix pre' s' else None
  | String _ _, EmptyString => None
  end.

Fixpoint has_slash (s : string) : bool :=
  match s with
  | EmptyString => false
  | String c s' => Ascii.eqb c "/"%char || has_slash s'
  end.

(** [p] is an entry of the directory [d]: [p = d/name]. *)
Definition is_child (d p : string) : bool :=
  match strip_prefix (d ++ "/") p with
  | Some name => negb (String.eqb name "") && negb (has_slash name)
  | None => false
  end.

Definition entries (w : World) (d : string) : list string :=
  filter (λ p, is_child d p = true) (elements (dirs w ∪ dom (files w))).

(** Something, a directory or a file, is at the path [p]. *)
Definition exists_in (w : World) (p : string) : bool :=
  bool_decide (p ∈ dirs w) || bool_decide (is_Some (files w !! p)).

(** ** State and exceptions

    A statement runs in a world and either raises or yields a value; the
    world it leaves is kept in both cases. *)
Definition M (A : Type) : Type := World → (exn + A) * World.

#[global] Instance M_ret : MRet M := λ A a w, (inr a, w).

#[global] Instance M_bind : MBind M := λ A B k m w,
  match m w with
  | (inr a, w') => k a w'
  | (inl e, w') => (inl e, w')
  end.

Definition lift {A} (r : exn + A) : M A := λ w, (r, w).

Fixpoint for_each (items : list JSON) (body : JSON → M unit) : M unit :=
  match items with
  | [] => mret tt
  | x :: rest => body x;; for_each rest body
  end.

(** ** The operating system *)
Module Os.

(** [os.path.exists(p)] *)
Definition path_exists (p : string) : M bool :=
  λ w, (inr (exists_in w p), w).

(** [os.scandir(p)] *)
Definition scandir (p : string) : M (list string) :=
  λ w, if bool_decide (p ∈ dirs w) then (inr (entries w p), w)
       else if bool_decide (is_Some (files w !! p)) then (inl NotADirectoryError, w)
       else (inl FileNotFoundError, w).

(** [json.load(open(p, "r"), strict=False)] *)
Definition load (p : string) : M JSON :=
  λ w, if bool_decide (p ∈ dirs w) then (inl IsADirectoryError, w)
       else match files w !! p with
            | Some (Document doc) => (inr doc, w)
            | Some Unparsable => (inl JSONDecodeError, w)
            | None => (inl FileNotFoundError, w)
            end.

(** [with open(p, "w") as outfile: outfile.write(json.dumps(doc, indent=4))]:
    the file is overwritten, or created in a directory that exists. *)
Definition dump (p : string) (doc : JSON) : M unit :=
  λ w, if bool_decide (p ∈ dirs w) then (inl IsADirectoryError, w)
       else if bool_decide (is_Some (files w !! p))
               || existsb (λ d, is_child d p) (elements (dirs w))
       then (inr tt, mkWorld (dirs w) (<[p := Document doc]> (files w))
                             (trace w ++ [Written p doc]))
       else (inl FileNotFoundError, w).

(** [print(line)] *)
Definition print (line : string) : M unit :=
  λ w, (inr tt, mkWorld (dirs w) (files w) (trace w ++ [Printed line])).

End Os.

(** Exceptions alone, for the steps that touch no file. *)
#[global] Instance exn_ret : MRet (sum exn) := λ A a, inr a.

#[global] Instance exn_bind : MBind (sum exn) := λ A B k r,
  match r with
  | inr a => k a
  | inl e => inl e
  end.

(** [obj[k1][k2]], [obj[k1][k2] = x] and [del obj[k1][k2]].  The inner
    dictionary is an object of its own that [obj] refers to: changing it
    in place is seen through [obj]. *)
Definition getitem2 (obj : JSON) (k1 k2 : string) : exn + JSON :=
  inner ← Py.getitem obj k1; Py.getitem inner k2.

Definition setitem2 (obj : JSON) (k1 k2 : string) (x : JSON) : exn + JSON :=
  inner ← Py.getitem obj k1;
  inner' ← Py.setitem inner k2 x;
  Py.setitem obj k1 inner'.

Definition delitem2 (obj : JSON) (k1 k2 : string) : exn + JSON :=
  inner ← Py.getitem obj k1;
  inner' ← Py.delitem inner k2;
  Py.setitem obj k1 inner'.

(** ** The script *)

Definition datasets_directory_path : string := "/media/manuel/500GBHDD/Tesi/Datasets".
Definition json_datasets_list_path : string := "/home/manuel/Tesi/ACORDAR/Data/datasets.json".

Section Annotator.

(** [len] of what [os.scandir] returns, given the entries of the
    directory.  The script takes it for the number of entries; the
    iterator CPython returns has no length, and [len] raises
    [TypeError] on it.  The model settles neither: the answer is a
    parameter, and what is proved of the script holds for each. *)
Variable iterator_len : list string → exn + Z.

(** [len(os.scandir(p))] *)
Definition len_scandir (p : string) : M Z :=
  es ← Os.scandir p; lift (iterator_len es).

(** [if k in dataset: dataset_json[k] = dataset[k]] *)
Definition copy_tag (k : string) (dataset dataset_json : JSON) : exn + JSON :=
  present ← Py.contains k dataset;
  if present : bool then x ← Py.getitem dataset k; Py.setitem dataset_json k x
  else mret dataset_json.

(** Lines 46-62.  The dictionary [dataset_json] is changed in place;
    here the changed dictionary is the result. *)
Definition addMetaTags (dataset dataset_json : JSON) : exn + JSON :=
  dataset_json ← copy_tag "dataset_id" dataset dataset_json;
  dataset_json ← copy_tag "title" dataset dataset_json;
  dataset_json ← copy_tag "description" dataset dataset_json;
  dataset_json ← copy_tag "author" dataset dataset_json;
  copy_tag "tags" dataset dataset_json.

(** Lines 69-74.  The result is [dataset_json] as the call leaves it. *)
Definition addDownloadInfo (dataset dataset_json : JSON)
    (dataset_directory_path : string) : M JSON :=
  nfiles ← len_scandir dataset_directory_path;
  dataset_json ← lift (setitem2 dataset_json "download_info" "downloaded" (JInt nfiles));
  total ← lift (urls ← Py.getitem dataset "download"; Py.len urls);
  lift (setitem2 dataset_json "download_info" "total_URLS" (JInt total)).

(** Lines 16-39. *)
Definition createDatasetJSONFile (dataset : JSON)
    (dataset_directory_path : string) : M unit :=
  let dataset_json := JDict ∅ in
  dataset_json ← lift (addMetaTags dataset dataset_json);
  dataset_json ← addDownloadInfo dataset dataset_json dataset_directory_path;
  dataset_json ← lift (Py.setitem dataset_json "mined" (JBool false));
  Os.dump (dataset_directory_path ++ "/dataset.json") dataset_json.

(** Lines 96-112: the branch taken when the loaded file has a
    [download_info].  Every read and every update goes to [dataset],
    the catalog record; the result is that record as the branch leaves
    it. *)
Definition adjust_download_info (dataset : JSON)
    (dataset_directory_path : string) : M JSON :=
  info ← lift (Py.getitem dataset "download_info");
  legacy ← lift (Py.contains "Downloaded" info);
  '(ndownloaded, dataset) ←
    (if legacy : bool then
       lift (n ← getitem2 dataset "download_info" "Downloaded";
             dataset ← delitem2 dataset "download_info" "Downloaded";
             dataset ← delitem2 dataset "download_info" "Total_URLS";
             mret (n, dataset))
     else
       lift (info ← Py.getitem dataset "download_info";
             canonical ← Py.contains "downloaded" info;
             if canonical : bool then
               n ← getitem2 dataset "download_info" "downloaded";
               mret (n, dataset)
             else mret (JInt 0, dataset)));
  n ← len_scandir dataset_directory_path;
  stale ← lift (Py.lt_int ndownloaded (n - 1));
  ndownloaded ←
    (if stale : bool then
       n ← len_scandir dataset_directory_path; mret (JInt (n - 1))
     else mret ndownloaded);
  dataset ← lift (setitem2 dataset "download_info" "downloaded" ndownloaded);
  total ← lift (urls ← Py.getitem dataset "download"; Py.len urls);
  lift (setitem2 dataset "download_info" "total_URLS" (JInt total)).

(** Lines 86-127.  The function returns nothing; the result here is the
    object [dataset] as the call leaves it, which the caller still
    holds. *)
Definition checkDownloadInfo (dataset : JSON)
    (dataset_directory_path dataset_json_path : string) : M JSON :=
  dataset_json ← Os.load dataset_json_path;
  present ← lift (Py.contains "download_info" dataset_json);
  '(dataset, dataset_json) ←
    (if present : bool then
       dataset ← adjust_download_info dataset dataset_directory_path;
       mret (dataset, dataset_json)
     else
       dataset_json ← addDownloadInfo dataset dataset_json dataset_directory_path;
       mret (dataset, dataset_json));
  Os.dump dataset_json_path dataset_json;;
  mret dataset.

(** Lines 142-159: one turn of the loop of [main]. *)
Definition annotate (dataset : JSON) : M unit :=
  dataset_id ← lift (Py.getitem dataset "dataset_id");
  dataset_directory_path ←
    lift (Py.add_str (datasets_directory_path ++ "/dataset-") dataset_id);
  dataset_json_path ←
    lift (p ← Py.add_str (datasets_directory_path ++ "/dataset-") dataset_id;
          mret (p ++ "/dataset.json"));
  downloaded ← Os.path_exists dataset_directory_path;
  if downloaded : bool then
    annotated ← Os.path_exists dataset_json_path;
    if negb annotated then
      line ← lift (s ← Py.add_str "Annotating dataset: " dataset_id;
                   mret (s ++ " creating the json file"));
      Os.print line;;
      createDatasetJSONFile dataset dataset_directory_path
    else
      checkDownloadInfo dataset dataset_directory_path dataset_json_path;;
      mret tt
  else mret tt.

(** Lines 130-164. *)
Definition main : M unit :=
  json_list ← Os.load json_datasets_list_path;
  Os.print "START ANNOTATION";;
  datasets ← lift (Py.getitem json_list "datasets");
  items ← lift (Py.iter datasets);
  for_each items annotate;;
  Os.print "END ANNOTATION".

End Annotator.

(** ** What a run leaves behind *)

(** The document stored at a path. *)
Definition descriptor (w : World) (path : string) : option JSON :=
  match files w !! path with
  | Some (Document doc) => Some doc
  | _ => None
  end.

(** A field of a document, and a field of its [download_info]. *)
Definition field (k : string) (doc : JSON) : option JSON :=
  match doc with
  | JDict d => d !! k
  | _ => None
  end.

Definition download_info_field (k : string) (doc : JSON) : option JSON :=
  field "download_info" doc ≫= field k.


(** A step that reads the world and leaves it as it found it. *)
Definition keeps_world {A} (m : M A) : Prop := ∀ w, (m w).2 = w.

(** A step after which every file holds the document it held before. *)
Definition keeps_files {A} (m : M A) : Prop := ∀ w, files (m w).2 = files w.

(** ** The decision of section 4.1, in the words of the specification *)
Inductive action : Type := Skip | Create | Repair.

Definition spec_action (directory_exists descriptor_exists : bool) : action :=
  if negb directory_exists then Skip
  else if negb descriptor_exists then Create
  else Repair.

(** What each action runs, for the record [dataset] whose identifier is
    the string [id]. *)
Definition run_action (iterator_len : list string → exn + Z)
    (a : action) (dataset : JSON) (id : string) : M unit :=
  let directory := datasets_directory_path ++ "/dataset-" ++ id in
  match a with
  | Skip => mret tt
  | Create =>
      Os.print ("Annotating dataset: " ++ id ++ " creating the json file");;
      createDatasetJSONFile iterator_len dataset directory
  | Repair =>
      checkDownloadInfo iterator_len dataset directory (directory ++ "/dataset.json");;
      mret tt
  end.

(** ** Inputs used in the examples below *)

(** [len] as the script expects it, and as CPython has it. *)
Definition count_entries (es : list string) : exn + Z := inr (Z.of_nat (length es)).
Definition no_len (es : list string) : exn + Z := inl TypeError.

(** The catalog record of the example of section 8: identifier 7, three
    download URLs. *)
Definition record7_fields : gmap string JSON :=
  {[ "dataset_id" := JStr "7";
     "title" := JStr "Air quality";
     "download" := JList [JStr "http://a/1"; JStr "http://a/2"; JStr "http://a/3"] ]}.

Definition record7 : JSON := JDict record7_fields.

(** The same record carrying a [download_info] of its own. *)
Definition record7_with (info : gmap string JSON) : JSON :=
  JDict (<["download_info" := JDict info]> record7_fields).

(** A descriptor with the given [download_info]. *)
Definition descriptor7 (info : gmap string JSON) : JSON :=
  JDict {[ "dataset_id" := JStr "7";
           "title" := JStr "Air quality";
           "download_info" := JDict info;
           "mined" := JBool true ]}.

(** A descriptor written before [download_info] was kept. *)
Definition descriptor7_bare : JSON :=
  JDict {[ "dataset_id" := JStr "7";
           "title" := JStr "Air quality";
           "mined" := JBool true ]}.

(** A world where nothing was downloaded. *)
Definition empty_world : World := mkWorld {[ datasets_directory_path ]} ∅ [].

Definition dir7 : string := datasets_directory_path ++ "/dataset-7".
Definition json7 : string := dir7 ++ "/dataset.json".

(** The directory of dataset 7 holding the named artifacts and, when
    given, a descriptor. *)
Definition world7 (artifacts : list string) (stored : option JSON) : World :=
  mkWorld {[ datasets_directory_path; dir7 ]}
          (list_to_map ((λ name, (dir7 ++ "/" ++ name, Unparsable)) <$> artifacts)
           ∪ from_option (λ doc, {[ json7 := Document doc ]}) ∅ stored)
          [].

(** ** The meta-tags and the output of a run *)

(** The keys [addMetaTags] looks for, in the order of lines 49-62. *)
Definition meta_tags : list string :=
  ["dataset_id"; "title"; "description"; "author"; "tags"].

(** The tags copied so far are the record's where it has them; every
    other key is as it was. *)
Definition tags_copied (copied : list string) (d d0 d1 : gmap string JSON) : Prop :=
  ∀ k, d1 !! k = if bool_decide (k ∈ copied)
                 then match d !! k with Some x => Some x | None => d0 !! k end
                 else d0 !! k.

(** A step that writes no file: what it adds to the trace is printed
    lines, and the files and directories stay as they are. *)
Definition prints_only {A} (m : M A) : Prop :=
  ∀ w, ∃ lines,
    (m w).2 = mkWorld (dirs w) (files w) (trace w ++ (Printed <$> lines)).

(** A catalog file: a document with the records under ["datasets"]. *)
Definition catalog (records : list JSON) : JSON :=
  JDict {[ "datasets" := JList records ]}.

(** A record of the catalog that is a dictionary with a string
    identifier and no directory in the world [w]. *)
Definition not_downloaded (w : World) (dataset : JSON) : Prop :=
  ∃ d id, dataset = JDict d ∧ d !! "dataset_id" = Some (JStr id) ∧
          exists_in w (datasets_directory_path ++ "/dataset-" ++ id) = false.

(** Lines 106-112 of [checkDownloadInfo], the end of
    [adjust_download_info]: from the value found for [ndownloaded] and
    the record as the test of the names left it. *)
Definition correct_and_store (iterator_len : list string → exn + Z)
    (dataset_directory_path : string) (found : JSON * JSON) : M JSON :=
  let '(ndownloaded, dataset) := found in
  n ← len_scandir iterator_len dataset_directory_path;
  stale ← lift (Py.lt_int ndownloaded (n - 1));
  ndownloaded ←
    (if stale : bool then
       n ← len_scandir iterator_len dataset_directory_path; mret (JInt (n - 1))
     else mret ndownloaded);
  dataset ← lift (setitem2 dataset "download_info" "downloaded" ndownloaded);
  total ← lift (urls ← Py.getitem dataset "download"; Py.len urls);
  lift (setitem2 dataset "download_info" "total_URLS" (JInt total)).

(** The world [base] with the catalog file holding these records. *)
Definition with_catalog (records : list JSON) (base : World) : World :=
  mkWorld (dirs base)
          (<[json_datasets_list_path := Document (catalog records)]> (files base))
          (trace base).

(** Lines 96-104, on the [download_info] that line 99 reads: the count
    found under the legacy name, else under the canonical one, else the 0
    of line 96; and that dictionary once lines 101-102 have deleted the
    legacy names, which they do when [Downloaded] is there. *)
Definition stored_count (info : gmap string JSON) : JSON :=
  match info !! "Downloaded" with
  | Some n => n
  | None => default (JInt 0) (info !! "downloaded")
  end.

Definition migrated (info : gmap string JSON) : gmap string JSON :=
  match info !! "Downloaded" with
  | Some _ => delete "Total_URLS" (delete "Downloaded" info)
  | None => info
  end.

(** ** Running a sequence of steps *)

Lemma bind_inl {A B} (m : M A) (k : A → M B) w e w' :
  m w = (inl e, w') → (m ≫= k) w = (inl e, w').
Proof. intros H. unfold mbind, M_bind. by rewrite H. Qed.

Lemma bind_inr {A B} (m : M A) (k : A → M B) w a w' :
  m w = (inr a, w') → (m ≫= k) w = k a w'.
Proof. intros H. unfold mbind, M_bind. by rewrite H. Qed.

Lemma bind_inv {A B} (m : M A) (k : A → M B) w r w' :
  (m ≫= k) w = (r, w') →
  (∃ e, m w = (inl e, w') ∧ r = inl e) ∨
  (∃ a w1, m w = (inr a, w1) ∧ k a w1 = (r, w')).
Proof.
  unfold mbind, M_bind. destruct (m w) as [[e|a] w1]; intros H.
  - left. exists e. by inversion H.
  - right. by exists a, w1.
Qed.

Lemma lift_run {A} (r : exn + A) w : lift r w = (r, w).
Proof. reflexivity. Qed.

Lemma keeps_run {A} (m : M A) w r w' : keeps_world m → m w = (r, w') → w' = w.
Proof. intros K H. specialize (K w). rewrite H in K. done. Qed.

Lemma keeps_lift {A} (r : exn + A) : keeps_world (lift r).
Proof. by intros w. Qed.

Lemma keeps_ret {A} (a : A) : keeps_world (mret a).
Proof. by intros w. Qed.

Lemma keeps_bind {A B} (m : M A) (k : A → M B) :
  keeps_world m → (∀ a, keeps_world (k a)) → keeps_world (m ≫= k).
Proof.
  intros Km Kk w. unfold mbind, M_bind.
  specialize (Km w). destruct (m w) as [[e|a] w1]; simpl in *; subst; [done|].
  apply Kk.
Qed.

Lemma keeps_path_exists p : keeps_world (Os.path_exists p).
Proof. by intros w. Qed.

Lemma keeps_scandir p : keeps_world (Os.scandir p).
Proof. intros w. unfold Os.scandir. by repeat case_bool_decide. Qed.

Lemma keeps_load p : keeps_world (Os.load p).
Proof.
  intros w. unfold Os.load. case_bool_decide; [done|].
  by destruct (files w !! p) as [[]|].
Qed.

Lemma keeps_len_scandir len p : keeps_world (len_scandir len p).
Proof. apply keeps_bind; [apply keeps_scandir | intros; apply keeps_lift]. Qed.

Create HintDb keeps.
#[global] Hint Resolve keeps_lift keeps_ret keeps_path_exists keeps_scandir
  keeps_load keeps_len_scandir : keeps.

Ltac next_binder :=
  match goal with
  | |- ∀ _ : bool, _ => intros []
  | |- ∀ _ : _ * _, _ => intros []
  | |- ∀ _, _ => intro
  end.

Ltac keeps :=
  repeat first
    [ solve [auto with keeps]
    | apply keeps_bind
    | next_binder
    | match goal with |- keeps_world (if ?b then _ else _) => destruct b end ].

(** A write that raises has written nothing; one that returns has
    replaced the document at its path and nothing else. *)
Lemma dump_inl p doc w e w' : Os.dump p doc w = (inl e, w') → w' = w.
Proof.
  unfold Os.dump. case_bool_decide; [by inversion 1|].
  destruct (_ || _); by inversion 1.
Qed.

Lemma dump_inr p doc w u w' :
  Os.dump p doc w = (inr u, w') →
  w' = mkWorld (dirs w) (<[p := Document doc]> (files w)) (trace w ++ [Written p doc]).
Proof.
  unfold Os.dump. case_bool_decide; [by inversion 1|].
  destruct (_ || _); by inversion 1.
Qed.

Lemma load_inr p w doc w' :
  Os.load p w = (inr doc, w') → w' = w ∧ files w !! p = Some (Document doc).
Proof.
  unfold Os.load. case_bool_decide; [by inversion 1|].
  destruct (files w !! p) as [[d|]|]; inversion 1; by subst.
Qed.

(** ** The missing [download_info] of a fresh descriptor *)

Lemma contains_false_getitem k v :
  Py.contains k v = inr false → ∃ e, Py.getitem v k = inl e.
Proof.
  destruct v as [| | | | |l|d]; simpl; try (by eexists).
  intros [= H%bool_decide_eq_false].
  destruct (d !! k) as [x|] eqn:E; [ |by eexists].
  destruct H. by exists x.
Qed.

Lemma copy_tag_dict k dataset d dataset_json :
  copy_tag k dataset (JDict d) = inr dataset_json →
  ∃ d', dataset_json = JDict d' ∧ ∀ k', k' ≠ k → d' !! k' = d !! k'.
Proof.
  unfold copy_tag, mbind, exn_bind, mret, exn_ret.
  destruct (Py.contains k dataset) as [e|[]]; [done| |].
  - destruct (Py.getitem dataset k) as [e|x]; [done|]. simpl. intros [= <-].
    eexists. split; [done|]. intros k' Hk. by rewrite lookup_insert_ne.
  - intros [= <-]. by exists d.
Qed.

Lemma addMetaTags_lacks_download_info dataset dataset_json :
  addMetaTags dataset (JDict ∅) = inr dataset_json →
  Py.getitem dataset_json "download_info" = inl (KeyError "download_info").
Proof.
  unfold addMetaTags. unfold mbind at 1 2 3 4, exn_bind.
  destruct (copy_tag "dataset_id" _ _) as [|j1] eqn:E1; [done|].
  apply copy_tag_dict in E1 as (d1 & -> & H1).
  destruct (copy_tag "title" _ _) as [|j2] eqn:E2; [done|].
  apply copy_tag_dict in E2 as (d2 & -> & H2).
  destruct (copy_tag "description" _ _) as [|j3] eqn:E3; [done|].
  apply copy_tag_dict in E3 as (d3 & -> & H3).
  destruct (copy_tag "author" _ _) as [|j4] eqn:E4; [done|].
  apply copy_tag_dict in E4 as (d4 & -> & H4).
  intros E5. apply copy_tag_dict in E5 as (d5 & -> & H5).
  simpl. rewrite H5, H4, H3, H2, H1 by done. by rewrite lookup_empty.
Qed.

Lemma setitem2_inl obj k1 k2 x e :
  Py.getitem obj k1 = inl e → setitem2 obj k1 k2 x = inl e.
Proof. intros H. unfold setitem2, mbind, exn_bind. by rewrite H. Qed.

(** [addDownloadInfo] assigns into [dataset_json["download_info"]] and
    never makes that dictionary: on a document without one it raises. *)
Lemma addDownloadInfo_raises len dataset dataset_json dir w e :
  Py.getitem dataset_json "download_info" = inl e →
  ∃ e', addDownloadInfo len dataset dataset_json dir w = (inl e', w).
Proof.
  intros H. unfold addDownloadInfo.
  destruct (len_scandir len dir w) as [[e1|n] w1] eqn:E.
  - apply keeps_run in E as Hw; [subst|apply keeps_len_scandir].
    exists e1. by apply bind_inl.
  - apply keeps_run in E as Hw; [subst|apply keeps_len_scandir].
    exists e. erewrite bind_inr by done. apply bind_inl.
    by rewrite (setitem2_inl _ _ _ _ e).
Qed.

Lemma keeps_addDownloadInfo len dataset dataset_json dir :
  keeps_world (addDownloadInfo len dataset dataset_json dir).
Proof. unfold addDownloadInfo. keeps. Qed.

Lemma keeps_adjust_download_info len dataset dir :
  keeps_world (adjust_download_info len dataset dir).
Proof. unfold adjust_download_info. keeps. Qed.

(** Create raises on every record, in every directory, and leaves the
    world as it found it. *)
Lemma createDatasetJSONFile_raises len dataset dir w :
  ∃ e, createDatasetJSONFile len dataset dir w = (inl e, w).
Proof.
  unfold createDatasetJSONFile.
  destruct (addMetaTags dataset (JDict ∅)) as [e|dj] eqn:E.
  - exists e. by apply bind_inl.
  - apply addMetaTags_lacks_download_info in E.
    destruct (addDownloadInfo_raises len dataset dj dir w _ E) as [e' He'].
    exists e'. erewrite bind_inr by apply lift_run. by apply bind_inl.
Qed.

(** ** What Repair does to the world

    Either it raises and the world is untouched, or the loaded document
    had a [download_info], the record was adjusted, and the document
    written back is the one that was loaded. *)
Lemma checkDownloadInfo_inv len dataset dir path w r w' :
  checkDownloadInfo len dataset dir path w = (r, w') →
  (∃ e, r = inl e ∧ w' = w) ∨
  (∃ dataset' doc,
     r = inr dataset' ∧
     files w !! path = Some (Document doc) ∧
     Py.contains "download_info" doc = inr true ∧
     adjust_download_info len dataset dir w = (inr dataset', w) ∧
     w' = mkWorld (dirs w) (files w) (trace w ++ [Written path doc])).
Proof.
  unfold checkDownloadInfo. intros H.
  apply bind_inv in H as [(e & H & ->)|(doc & w1 & Hload & H)].
  { left. exists e. split; [done|]. by apply keeps_run in H; [ |apply keeps_load]. }
  apply load_inr in Hload as [-> Hfile].
  apply bind_inv in H as [(e & H & ->)|(present & w1 & Hc & H)].
  { left. exists e. split; [done|]. by inversion H. }
  rewrite lift_run in Hc. inversion Hc as [[Hpresent Hw]]. subst w1. clear Hc.
  destruct present.
  - apply bind_inv in H as [(e & H & ->)|([dataset' doc'] & w1 & Hadj & H)].
    + left. exists e. split; [done|].
      apply keeps_run in H; [done|].
      apply keeps_bind; [apply keeps_adjust_download_info|intros; apply keeps_ret].
    + apply bind_inv in Hadj as [(e & _ & [=])|(d1 & w2 & Hadj & Hret)].
      inversion Hret; subst. clear Hret.
      assert (w1 = w) as ->
        by (eapply keeps_run; [apply keeps_adjust_download_info|done]).
      apply bind_inv in H as [(e & H & ->)|([] & w2 & Hdump & H)].
      * left. exists e. split; [done|]. by apply dump_inl in H.
      * right. apply dump_inr in Hdump as ->. inversion H; subst.
        exists dataset', doc'. repeat split; try done.
        by rewrite insert_id.
  - left. apply contains_false_getitem in Hpresent as [e He].
    destruct (addDownloadInfo_raises len dataset doc dir w e He) as [e' He'].
    erewrite bind_inl in H; [ |by apply bind_inl].
    inversion H. by exists e'.
Qed.

Lemma checkDownloadInfo_files len dataset dir path w :
  files (checkDownloadInfo len dataset dir path w).2 = files w ∧
  dirs (checkDownloadInfo len dataset dir path w).2 = dirs w.
Proof.
  destruct (checkDownloadInfo len dataset dir path w) as [r w'] eqn:E.
  apply checkDownloadInfo_inv in E as [(e & _ & ->)|(d' & doc & _ & _ & _ & _ & ->)];
    by simpl.
Qed.

Lemma checkDownloadInfo_descriptor len dataset dir path w p :
  descriptor (checkDownloadInfo len dataset dir path w).2 p = descriptor w p.
Proof.
  unfold descriptor.
  by destruct (checkDownloadInfo_files len dataset dir path w) as [-> _].
Qed.

(** ** Create *)

(** C1, on the example of section 8 (record 7 with three URLs, a
    directory of two files, no descriptor): the claim has Create produce
    a descriptor with [downloaded = 2], [total_URLS = 3] and
    [mined = false].  The code raises instead, whatever [len] answers on
    the directory, and no descriptor is there afterwards: [addDownloadInfo]
    assigns into [dataset_json["download_info"]], a dictionary that
    nothing has put into the fresh [dataset_json]. *)
Theorem create_example_raises :
  let w := world7 ["a.csv"; "b.csv"] None in
  len_scandir count_entries dir7 w = (inr 2, w) ∧
  descriptor w json7 = None ∧
  createDatasetJSONFile count_entries record7 dir7 w
    = (inl (KeyError "download_info"), w) ∧
  createDatasetJSONFile no_len record7 dir7 w = (inl TypeError, w) ∧
  ∀ len, ∃ e, createDatasetJSONFile len record7 dir7 w = (inl e, w).
Proof.
  repeat split; try (vm_compute; reflexivity).
  intros len. apply createDatasetJSONFile_raises.
Qed.

(** C10: when Create raises, the world is the one it started in: no
    file was written, none was made.  The write is the last step of
    [createDatasetJSONFile], and the steps before it only read. *)
Theorem create_raise_keeps_world len dataset dir w e w' :
  createDatasetJSONFile len dataset dir w = (inl e, w') → w' = w.
Proof.
  unfold createDatasetJSONFile. intros H.
  apply bind_inv in H as [(e1 & H & _)|(dj1 & w1 & H1 & H)].
  { by inversion H. }
  rewrite lift_run in H1. injection H1 as _ <-.
  apply bind_inv in H as [(e1 & H & _)|(dj2 & w2 & H2 & H)].
  { eapply keeps_run; [apply keeps_addDownloadInfo|done]. }
  apply keeps_run in H2 as ->; [ |apply keeps_addDownloadInfo].
  apply bind_inv in H as [(e1 & H & _)|(dj3 & w3 & H3 & H)].
  { by inversion H. }
  rewrite lift_run in H3. injection H3 as _ <-.
  by apply dump_inl in H.
Qed.

Lemma create_raise_keeps_world_witness :
  createDatasetJSONFile count_entries record7 dir7 (world7 ["a.csv"] None)
    = (inl (KeyError "download_info"), world7 ["a.csv"] None) ∧
  world7 ["a.csv"] None = world7 ["a.csv"] None.
Proof.
  split; [vm_compute; reflexivity|].
  apply (create_raise_keeps_world count_entries record7 dir7
           (world7 ["a.csv"] None) (KeyError "download_info")).
  vm_compute; reflexivity.
Defined.

(** ** The decision taken for each record *)

(** C7: for a record whose identifier is a string, one turn of the loop
    runs the action that section 4.1 names: skip when the directory is
    absent, else Create when [dataset.json] is absent from it, else
    Repair. *)
Theorem annotate_runs_spec_action len d id w :
  d !! "dataset_id" = Some (JStr id) →
  let directory := datasets_directory_path ++ "/dataset-" ++ id in
  annotate len (JDict d) w
  = run_action len
      (spec_action (exists_in w directory)
                   (exists_in w (directory ++ "/dataset.json")))
      (JDict d) id w.
Proof.
  intros Hid directory. unfold annotate.
  erewrite bind_inr by (rewrite lift_run; simpl; by rewrite Hid).
  erewrite bind_inr by (rewrite lift_run; reflexivity).
  erewrite bind_inr by (rewrite lift_run; reflexivity).
  erewrite bind_inr by reflexivity.
  change ((datasets_directory_path ++ "/dataset-") ++ id) with directory.
  unfold spec_action.
  destruct (exists_in w directory); simpl; [ |done].
  erewrite bind_inr by reflexivity.
  destruct (exists_in w (directory ++ "/dataset.json")); simpl; [done|].
  erewrite bind_inr by (rewrite lift_run; reflexivity).
  reflexivity.
Qed.

(** C5: a record whose dataset directory does not exist is passed over:
    the turn returns without raising and leaves the world, files and
    trace, as it was. *)
Theorem annotate_skips_absent_directory len d id w :
  d !! "dataset_id" = Some (JStr id) →
  exists_in w (datasets_directory_path ++ "/dataset-" ++ id) = false →
  annotate len (JDict d) w = (inr tt, w).
Proof.
  intros Hid Hdir. unfold annotate.
  erewrite bind_inr by (rewrite lift_run; simpl; by rewrite Hid).
  erewrite bind_inr by (rewrite lift_run; reflexivity).
  erewrite bind_inr by (rewrite lift_run; reflexivity).
  erewrite bind_inr by reflexivity.
  change ((datasets_directory_path ++ "/dataset-") ++ id)
    with (datasets_directory_path ++ "/dataset-" ++ id).
  by rewrite Hdir.
Qed.

Lemma annotate_runs_spec_action_witness :
  let w := world7 ["a.csv"] (Some (descriptor7 {[ "downloaded" := JInt 1; "total_URLS" := JInt 3 ]})) in
  record7_fields !! "dataset_id" = Some (JStr "7") ∧
  annotate count_entries record7 w
  = run_action count_entries
      (spec_action (exists_in w (datasets_directory_path ++ "/dataset-" ++ "7"))
                   (exists_in w ((datasets_directory_path ++ "/dataset-" ++ "7")
                                 ++ "/dataset.json")))
      record7 "7" w.
Proof.
  split; [vm_compute; reflexivity|].
  apply (annotate_runs_spec_action count_entries record7_fields "7").
  vm_compute; reflexivity.
Defined.

Lemma annotate_skips_absent_directory_witness :
  record7_fields !! "dataset_id" = Some (JStr "7") ∧
  exists_in empty_world (datasets_directory_path ++ "/dataset-" ++ "7") = false ∧
  annotate count_entries record7 empty_world = (inr tt, empty_world).
Proof.
  split; [vm_compute; reflexivity|].
  split; [vm_compute; reflexivity|].
  apply (annotate_skips_absent_directory count_entries record7_fields "7");
    vm_compute; reflexivity.
Defined.

(** ** Updates of an inner dictionary *)

Lemma setitem2_inr obj k1 k2 x obj' :
  setitem2 obj k1 k2 x = inr obj' →
  ∃ d inner, obj = JDict d ∧ d !! k1 = Some (JDict inner) ∧
             obj' = JDict (<[k1 := JDict (<[k2 := x]> inner)]> d).
Proof.
  unfold setitem2, mbind, exn_bind.
  destruct obj as [| | | | | |d]; try done. simpl.
  destruct (d !! k1) as [[| | | | | |inner]|] eqn:E; try done. simpl.
  intros [= <-]. by exists d, inner.
Qed.

Lemma delitem2_inr obj k1 k2 obj' :
  delitem2 obj k1 k2 = inr obj' →
  ∃ d inner, obj = JDict d ∧ d !! k1 = Some (JDict inner) ∧
             obj' = JDict (<[k1 := JDict (delete k2 inner)]> d).
Proof.
  unfold delitem2, mbind, exn_bind.
  destruct obj as [| | | | | |d]; try done. simpl.
  destruct (d !! k1) as [[| | | | | |inner]|] eqn:E; try done. simpl.
  destruct (inner !! k2); [ |done]. simpl.
  intros [= <-]. by exists d, inner.
Qed.

(** An update under [k1] leaves the other keys of the object alone. *)
Lemma setitem2_other obj k1 k2 x obj' k :
  setitem2 obj k1 k2 x = inr obj' → k ≠ k1 →
  Py.getitem obj' k = Py.getitem obj k.
Proof.
  intros (d & inner & -> & _ & ->)%setitem2_inr Hk. simpl.
  by rewrite lookup_insert_ne.
Qed.

Lemma delitem2_other obj k1 k2 obj' k :
  delitem2 obj k1 k2 = inr obj' → k ≠ k1 →
  Py.getitem obj' k = Py.getitem obj k.
Proof.
  intros (d & inner & -> & _ & ->)%delitem2_inr Hk. simpl.
  by rewrite lookup_insert_ne.
Qed.

(** ** Stepping through a run that returned *)

(** A step of a run that returned. *)
Ltac step H a wa Ha :=
  apply bind_inv in H as [(? & _ & [=])|(a & wa & Ha & H)].

Ltac lifted H :=
  rewrite lift_run in H; injection H as H <-.

(** ** Repair *)



(** On a descriptor without [download_info] Repair falls back on
    [addDownloadInfo], which raises before anything is written. *)
Lemma repair_without_download_info_raises len dataset dir path w doc :
  files w !! path = Some (Document doc) →
  Py.contains "download_info" doc = inr false →
  ∃ e, checkDownloadInfo len dataset dir path w = (inl e, w).
Proof.
  intros Hfile Hno.
  destruct (checkDownloadInfo len dataset dir path w) as [r w'] eqn:E.
  apply checkDownloadInfo_inv in E
    as [(e & -> & ->)|(d' & doc' & _ & Hfile' & Hyes & _)]; [by exists e|].
  rewrite Hfile in Hfile'. injection Hfile' as <-. congruence.
Qed.

(** C2, on the first example of section 8 (stored [downloaded = 1], a
    directory of four artifacts and the descriptor): the claim has the
    descriptor rewritten with [downloaded = max(1, 5 - 1) = 4].  The code
    reads and corrects [dataset["download_info"]], the catalog record,
    where [dataset_json], the loaded descriptor, was meant: record 7 has
    no such key and the call raises; and whatever record and [len] it is
    given, the descriptor keeps [downloaded = 1]. *)
Theorem repair_example_keeps_stale_count :
  let stored := descriptor7 {[ "downloaded" := JInt 1; "total_URLS" := JInt 3 ]} in
  let w := world7 ["a.csv"; "b.csv"; "c.csv"; "d.csv"] (Some stored) in
  len_scandir count_entries dir7 w = (inr 5, w) ∧
  Z.max 1 (5 - 1) = 4 ∧
  checkDownloadInfo count_entries record7 dir7 json7 w
    = (inl (KeyError "download_info"), w) ∧
  ∀ len dataset,
    descriptor (checkDownloadInfo len dataset dir7 json7 w).2 json7
      ≫= download_info_field "downloaded" = Some (JInt 1).
Proof.
  intros stored w.
  split; [vm_compute; reflexivity|].
  split; [reflexivity|].
  split; [vm_compute; reflexivity|].
  intros len dataset. rewrite checkDownloadInfo_descriptor.
  vm_compute; reflexivity.
Qed.

(** C3, on the example of section 8 (stored [total_URLS = 99], a record
    of three URLs): the claim has the descriptor rewritten with
    [total_URLS = 3].  The code assigns the count to
    [dataset["download_info"]["total_URLS"]], in the catalog record: on
    record 7 the call raises; on a record with a [download_info] of its
    own the call returns, the record gets the 3, and the document written
    is the stored one; in every case the descriptor keeps the 99. *)
Theorem repair_example_keeps_stored_total :
  let info : gmap string JSON := {[ "downloaded" := JInt 1; "total_URLS" := JInt 99 ]} in
  let stored := descriptor7 info in
  let w := world7 ["a.csv"] (Some stored) in
  (Py.getitem record7 "download" ≫= Py.len) = inr 3 ∧
  checkDownloadInfo count_entries record7 dir7 json7 w
    = (inl (KeyError "download_info"), w) ∧
  checkDownloadInfo count_entries (record7_with info) dir7 json7 w
    = (inr (record7_with {[ "downloaded" := JInt 1; "total_URLS" := JInt 3 ]}),
       mkWorld (dirs w) (files w) [Written json7 stored]) ∧
  ∀ len dataset,
    descriptor (checkDownloadInfo len dataset dir7 json7 w).2 json7
      ≫= download_info_field "total_URLS" = Some (JInt 99).
Proof.
  intros info stored w.
  split; [vm_compute; reflexivity|].
  split; [vm_compute; reflexivity|].
  split; [vm_compute; reflexivity|].
  intros len dataset. rewrite checkDownloadInfo_descriptor.
  vm_compute; reflexivity.
Qed.

(** C4, on a descriptor with the legacy names ([Downloaded = 2],
    [Total_URLS = 3]): the claim has it rewritten with [downloaded] and
    [total_URLS] and no legacy name left.  The code looks for
    ["Downloaded"] in [dataset["download_info"]], the catalog record, and
    deletes and renames there: on record 7 the call raises; on a record
    that carries the legacy names the call returns, that record is
    renamed, and the document written is the stored one; in every case
    the descriptor keeps the legacy names and gets no canonical one. *)
Theorem repair_example_keeps_legacy_names :
  let info : gmap string JSON := {[ "Downloaded" := JInt 2; "Total_URLS" := JInt 3 ]} in
  let stored := descriptor7 info in
  let w := world7 ["a.csv"; "b.csv"] (Some stored) in
  checkDownloadInfo count_entries record7 dir7 json7 w
    = (inl (KeyError "download_info"), w) ∧
  checkDownloadInfo count_entries (record7_with info) dir7 json7 w
    = (inr (record7_with {[ "downloaded" := JInt 2; "total_URLS" := JInt 3 ]}),
       mkWorld (dirs w) (files w) [Written json7 stored]) ∧
  ∀ len dataset,
    let after := descriptor (checkDownloadInfo len dataset dir7 json7 w).2 json7 in
    after ≫= download_info_field "Downloaded" = Some (JInt 2) ∧
    after ≫= download_info_field "Total_URLS" = Some (JInt 3) ∧
    after ≫= download_info_field "downloaded" = None ∧
    after ≫= download_info_field "total_URLS" = None.
Proof.
  intros info stored w.
  split; [vm_compute; reflexivity|].
  split; [vm_compute; reflexivity|].
  intros len dataset after. subst after.
  rewrite checkDownloadInfo_descriptor.
  repeat split; vm_compute; reflexivity.
Qed.

(** C8, on a descriptor without [download_info] in a directory of three
    entries: the claim has it rewritten with [downloaded = 3] and
    [total_URLS = 3].  The fallback is the [addDownloadInfo] of Create,
    which assigns into a [download_info] that is not there: the call
    raises whatever record and [len] it is given, nothing is written, and
    the descriptor still has no [download_info]. *)
Theorem repair_example_fallback_raises :
  let w := world7 ["a.csv"; "b.csv"] (Some descriptor7_bare) in
  len_scandir count_entries dir7 w = (inr 3, w) ∧
  (Py.getitem record7 "download" ≫= Py.len) = inr 3 ∧
  checkDownloadInfo count_entries record7 dir7 json7 w
    = (inl (KeyError "download_info"), w) ∧
  (∀ len dataset, ∃ e, checkDownloadInfo len dataset dir7 json7 w = (inl e, w)) ∧
  descriptor w json7 ≫= field "download_info" = None.
Proof.
  intros w.
  split; [vm_compute; reflexivity|].
  split; [vm_compute; reflexivity|].
  split; [vm_compute; reflexivity|].
  split; [ |vm_compute; reflexivity].
  intros len dataset.
  apply (repair_without_download_info_raises len dataset dir7 json7 w descriptor7_bare);
    vm_compute; reflexivity.
Qed.

(** ** A whole run *)

Lemma keeps_files_of_world {A} (m : M A) : keeps_world m → keeps_files m.
Proof. intros K w. by rewrite K. Qed.

Lemma keeps_files_bind {A B} (m : M A) (k : A → M B) :
  keeps_files m → (∀ a, keeps_files (k a)) → keeps_files (m ≫= k).
Proof.
  intros Km Kk w. unfold mbind, M_bind.
  specialize (Km w). destruct (m w) as [[e|a] w1]; simpl in *; [done|].
  by rewrite Kk.
Qed.

Lemma keeps_files_print line : keeps_files (Os.print line).
Proof. by intros w. Qed.

Lemma keeps_files_create len dataset dir :
  keeps_files (createDatasetJSONFile len dataset dir).
Proof. intros w. by destruct (createDatasetJSONFile_raises len dataset dir w) as [e ->]. Qed.

Lemma keeps_files_repair len dataset dir path :
  keeps_files (checkDownloadInfo len dataset dir path).
Proof. intros w. apply checkDownloadInfo_files. Qed.

#[global] Hint Resolve keeps_files_of_world keeps_files_print keeps_files_create
  keeps_files_repair : keeps.

Ltac keeps_files :=
  repeat first
    [ solve [auto with keeps]
    | apply keeps_files_bind
    | next_binder
    | match goal with |- keeps_files (if ?b then _ else _) => destruct b end ].

Lemma keeps_files_annotate len dataset : keeps_files (annotate len dataset).
Proof. unfold annotate. keeps_files. Qed.

Lemma keeps_files_for_each items body :
  (∀ x, keeps_files (body x)) → keeps_files (for_each items body).
Proof.
  intros Hbody. induction items as [|x rest IH]; simpl.
  - apply keeps_files_of_world, keeps_ret.
  - apply keeps_files_bind; [apply Hbody|by intros _].
Qed.

(** X17: no run of the script changes the document of any file,
    whatever the catalog, the directories and the answer of [len]: Create
    raises before its write, and Repair writes back what it loaded. *)
Lemma keeps_files_main len : keeps_files (main len).
Proof.
  unfold main.
  pose proof (keeps_files_annotate len).
  pose proof (λ items, keeps_files_for_each items (annotate len)).
  keeps_files.
Qed.

(** ** The meta-tags *)

Lemma copy_tag_record k d d0 :
  copy_tag k (JDict d) (JDict d0)
  = inr (JDict (match d !! k with Some x => <[k := x]> d0 | None => d0 end)).
Proof.
  unfold copy_tag, mbind, exn_bind, mret, exn_ret. simpl.
  destruct (d !! k) as [x|] eqn:E.
  - by rewrite bool_decide_eq_true_2 by by exists x.
  - rewrite bool_decide_eq_false_2; [done|]. by intros [x [=]].
Qed.

Lemma copy_tag_copied t copied d d0 d1 :
  tags_copied copied d d0 d1 →
  tags_copied (t :: copied) d d0
    (match d !! t with Some x => <[t := x]> d1 | None => d1 end).
Proof.
  intros H k. specialize (H k).
  destruct (decide (k = t)) as [->|Hne].
  - rewrite bool_decide_eq_true_2 by (apply elem_of_cons; by left).
    destruct (d !! t) as [x|] eqn:E; [by rewrite lookup_insert_eq|].
    rewrite H. by case_bool_decide.
  - assert ((if d !! t is Some x then <[t := x]> d1 else d1) !! k = d1 !! k) as ->.
    { destruct (d !! t); [by rewrite lookup_insert_ne|done]. }
    rewrite H. apply (f_equal (λ b : bool, if b then _ else _)).
    apply bool_decide_ext. rewrite elem_of_cons. tauto.
Qed.

(** X1: on a record that is a dictionary [addMetaTags] does not raise;
    it puts into [dataset_json] each of the five meta-tags the record
    has, with the record's value, leaves out those it lacks, and leaves
    every other key of [dataset_json] as it was: nothing else of the
    record is copied. *)
Theorem addMetaTags_copies_present_tags d d0 :
  ∃ d', addMetaTags (JDict d) (JDict d0) = inr (JDict d') ∧
        ∀ k, d' !! k = if bool_decide (k ∈ meta_tags)
                       then match d !! k with Some x => Some x | None => d0 !! k end
                       else d0 !! k.
Proof.
  unfold addMetaTags, mbind, exn_bind.
  repeat (rewrite copy_tag_record; cbv beta iota).
  eexists. split; [reflexivity|].
  assert (tags_copied [] d d0 d0) as H0 by (by intros k).
  do 5 (eapply copy_tag_copied in H0).
  intros k. rewrite (H0 k).
  apply (f_equal (λ b : bool, if b then _ else _)).
  apply bool_decide_ext. unfold meta_tags.
  rewrite !elem_of_cons, !elem_of_nil. tauto.
Qed.

Lemma copy_tag_not_record k dataset dataset_json :
  (∀ d, dataset ≠ JDict d) →
  copy_tag k dataset dataset_json = inl TypeError ∨
  copy_tag k dataset dataset_json = inr dataset_json.
Proof.
  intros Hnd. unfold copy_tag, mbind, exn_bind, mret, exn_ret.
  destruct dataset as [| | | |s|l|d]; simpl; try (by left).
  - destruct (Py.substring k s); [by left|by right].
  - destruct (existsb (Py.eq_str k) l); [by left|by right].
  - by destruct (Hnd d).
Qed.

(** X2: a record that is not a dictionary gives no meta-tag:
    [addMetaTags] raises [TypeError] or leaves [dataset_json] as it
    is. *)
Theorem addMetaTags_not_record dataset dataset_json :
  (∀ d, dataset ≠ JDict d) →
  addMetaTags dataset dataset_json = inl TypeError ∨
  addMetaTags dataset dataset_json = inr dataset_json.
Proof.
  intros Hnd. unfold addMetaTags, mbind, exn_bind.
  destruct (copy_tag_not_record "dataset_id" dataset dataset_json Hnd) as [->| ->];
    [by left|].
  destruct (copy_tag_not_record "title" dataset dataset_json Hnd) as [->| ->];
    [by left|].
  destruct (copy_tag_not_record "description" dataset dataset_json Hnd) as [->| ->];
    [by left|].
  destruct (copy_tag_not_record "author" dataset dataset_json Hnd) as [->| ->];
    [by left|].
  apply copy_tag_not_record, Hnd.
Qed.

Lemma addMetaTags_not_record_witness :
  (∀ d, JList [JStr "title"] ≠ JDict d) ∧
  (addMetaTags (JList [JStr "title"]) (JDict ∅) = inl TypeError ∨
   addMetaTags (JList [JStr "title"]) (JDict ∅) = inr (JDict ∅)).
Proof.
  split; [done|].
  apply (addMetaTags_not_record (JList [JStr "title"]) (JDict ∅)). done.
Defined.

(** ** Create and [addDownloadInfo], for every input *)

(** A decidable fact, settled by computing. *)
Ltac by_compute := apply (bool_decide_unpack _); vm_compute; exact I.

Lemma len_scandir_run len dir w :
  dir ∈ dirs w → len_scandir len dir w = (len (entries w dir), w).
Proof.
  intros Hdir. unfold len_scandir, mbind, M_bind, Os.scandir.
  by rewrite bool_decide_eq_true_2.
Qed.

(** X3: Create never returns: for every record, directory, world and
    answer of [len], [createDatasetJSONFile] raises, and the world after
    it is the world before it. *)
Theorem create_never_returns len dataset dir w :
  ∃ e, createDatasetJSONFile len dataset dir w = (inl e, w).
Proof. apply createDatasetJSONFile_raises. Qed.

(** X4: on a record that is a dictionary, in a directory that exists
    and whose entries [len] counts, what Create raises is
    [KeyError('download_info')], from line 73. *)
Theorem create_raises_key_error len d dir w n :
  dir ∈ dirs w →
  len (entries w dir) = inr n →
  createDatasetJSONFile len (JDict d) dir w = (inl (KeyError "download_info"), w).
Proof.
  intros Hdir Hlen. unfold createDatasetJSONFile.
  destruct (addMetaTags_copies_present_tags d ∅) as (d' & Htags & Hd').
  erewrite bind_inr by (rewrite lift_run, Htags; reflexivity).
  apply bind_inl. unfold addDownloadInfo.
  erewrite bind_inr by (rewrite len_scandir_run, Hlen; done).
  apply bind_inl. rewrite lift_run. f_equal.
  apply setitem2_inl. simpl. rewrite Hd'. simpl.
  by rewrite lookup_empty.
Qed.

Lemma create_raises_key_error_witness :
  dir7 ∈ dirs (world7 ["a.csv"] None) ∧
  count_entries (entries (world7 ["a.csv"] None) dir7) = inr 1 ∧
  createDatasetJSONFile count_entries (JDict record7_fields) dir7 (world7 ["a.csv"] None)
  = (inl (KeyError "download_info"), world7 ["a.csv"] None).
Proof.
  split; [by_compute|].
  split; [vm_compute; reflexivity|].
  apply (create_raises_key_error count_entries record7_fields dir7
           (world7 ["a.csv"] None) 1).
  - by_compute.
  - vm_compute; reflexivity.
Defined.

(** X5: given a document that has a [download_info] dictionary,
    [addDownloadInfo] sets its [downloaded] to the number [len] answers
    for the directory, with no adjustment, and its [total_URLS] to the
    length of the record's [download]; the other keys of
    [download_info], the other keys of the document and the world are
    left as they are. *)
Theorem addDownloadInfo_fills_download_info len dataset dj info dir w n c :
  dj !! "download_info" = Some (JDict info) →
  dir ∈ dirs w →
  len (entries w dir) = inr n →
  Py.getitem dataset "download" ≫= Py.len = inr c →
  addDownloadInfo len dataset (JDict dj) dir w
  = (inr (JDict (<["download_info" :=
                   JDict (<["total_URLS" := JInt c]> (<["downloaded" := JInt n]> info))]> dj)),
     w).
Proof.
  intros Hinfo Hdir Hlen Hurls. unfold addDownloadInfo.
  erewrite bind_inr by (rewrite len_scandir_run, Hlen; done).
  erewrite bind_inr
    by (rewrite lift_run; unfold setitem2, mbind, exn_bind; simpl;
        rewrite Hinfo; reflexivity).
  erewrite bind_inr by (rewrite lift_run; f_equal; exact Hurls).
  rewrite lift_run. unfold setitem2, mbind, exn_bind. simpl.
  rewrite lookup_insert_eq. simpl. by rewrite insert_insert_eq.
Qed.

Lemma addDownloadInfo_fills_download_info_witness :
  let dj : gmap string JSON := {[ "download_info" := JDict ∅; "mined" := JBool false ]} in
  let w := world7 ["a.csv"; "b.csv"] None in
  dj !! "download_info" = Some (JDict ∅) ∧
  dir7 ∈ dirs w ∧
  count_entries (entries w dir7) = inr 2 ∧
  Py.getitem record7 "download" ≫= Py.len = inr 3 ∧
  addDownloadInfo count_entries record7 (JDict dj) dir7 w
  = (inr (JDict (<["download_info" :=
                   JDict (<["total_URLS" := JInt 3]> (<["downloaded" := JInt 2]> ∅))]> dj)),
     w).
Proof.
  intros dj w.
  split; [vm_compute; reflexivity|].
  split; [by_compute|].
  split; [vm_compute; reflexivity|].
  split; [vm_compute; reflexivity|].
  apply (addDownloadInfo_fills_download_info count_entries record7 dj ∅ dir7 w 2 3).
  - vm_compute; reflexivity.
  - by_compute.
  - vm_compute; reflexivity.
  - vm_compute; reflexivity.
Defined.

(** X6: a record that is a dictionary without a [download] key, a
    document that has a [download_info] dictionary, a directory that
    exists and for which [len] answers a number: on these
    [addDownloadInfo] passes lines 71 and 73 and raises
    [KeyError('download')] at line 74, and the world is left as it is.
    (Where [len] raises, as CPython's does, line 71 raises first.) *)
Theorem addDownloadInfo_missing_urls len d dj info dir w n :
  d !! "download" = None →
  dj !! "download_info" = Some (JDict info) →
  dir ∈ dirs w →
  len (entries w dir) = inr n →
  addDownloadInfo len (JDict d) (JDict dj) dir w = (inl (KeyError "download"), w).
Proof.
  intros Hurls Hinfo Hdir Hlen. unfold addDownloadInfo.
  erewrite bind_inr by (rewrite len_scandir_run, Hlen; done).
  erewrite bind_inr
    by (rewrite lift_run; unfold setitem2, mbind, exn_bind; simpl;
        rewrite Hinfo; reflexivity).
  apply bind_inl. rewrite lift_run. unfold mbind, exn_bind. simpl.
  by rewrite Hurls.
Qed.

Lemma addDownloadInfo_missing_urls_witness :
  let d : gmap string JSON := {[ "dataset_id" := JStr "7" ]} in
  let dj : gmap string JSON := {[ "download_info" := JDict ∅ ]} in
  let w := world7 ["a.csv"] None in
  d !! "download" = None ∧
  dj !! "download_info" = Some (JDict ∅) ∧
  dir7 ∈ dirs w ∧
  count_entries (entries w dir7) = inr 1 ∧
  addDownloadInfo count_entries (JDict d) (JDict dj) dir7 w
  = (inl (KeyError "download"), w).
Proof.
  intros d dj w.
  split; [vm_compute; reflexivity|].
  split; [vm_compute; reflexivity|].
  split; [by_compute|].
  split; [vm_compute; reflexivity|].
  apply (addDownloadInfo_missing_urls count_entries d dj ∅ dir7 w 1).
  - vm_compute; reflexivity.
  - vm_compute; reflexivity.
  - by_compute.
  - vm_compute; reflexivity.
Defined.

(** ** What Repair does to the catalog record *)

Lemma adjust_download_info_unfold len dataset dir :
  adjust_download_info len dataset dir
  = (info ← lift (Py.getitem dataset "download_info");
     legacy ← lift (Py.contains "Downloaded" info);
     found ←
       (if legacy : bool then
          lift (n ← getitem2 dataset "download_info" "Downloaded";
                dataset ← delitem2 dataset "download_info" "Downloaded";
                dataset ← delitem2 dataset "download_info" "Total_URLS";
                mret (n, dataset))
        else
          lift (info ← Py.getitem dataset "download_info";
                canonical ← Py.contains "downloaded" info;
                if canonical : bool then
                  n ← getitem2 dataset "download_info" "downloaded";
                  mret (n, dataset)
                else mret (JInt 0, dataset)));
     correct_and_store len dir found).
Proof.
  reflexivity.
Qed.

Lemma correct_and_store_int len dir w n0 d2 info2 n c :
  d2 !! "download_info" = Some (JDict info2) →
  dir ∈ dirs w →
  len (entries w dir) = inr n →
  Py.getitem (JDict d2) "download" ≫= Py.len = inr c →
  correct_and_store len dir (JInt n0, JDict d2) w
  = (inr (JDict (<["download_info" :=
                   JDict (<["total_URLS" := JInt c]>
                            (<["downloaded" := JInt (Z.max n0 (n - 1))]> info2))]> d2)),
     w).
Proof.
  intros Hinfo Hdir Hlen Hurls. unfold correct_and_store.
  erewrite bind_inr by (rewrite len_scandir_run, Hlen; done).
  erewrite bind_inr by (rewrite lift_run; reflexivity).
  assert ((if (n0 <? n - 1)%Z
           then n' ← len_scandir len dir; mret (JInt (n' - 1))
           else mret (JInt n0)) w = (inr (JInt (Z.max n0 (n - 1))), w)) as Hmax.
  { destruct (Z.ltb_spec n0 (n - 1)).
    - erewrite bind_inr by (rewrite len_scandir_run, Hlen; done).
      unfold mret, M_ret. do 3 f_equal. lia.
    - unfold mret, M_ret. do 3 f_equal. lia. }
  erewrite bind_inr by exact Hmax.
  erewrite bind_inr
    by (rewrite lift_run; unfold setitem2, mbind, exn_bind; simpl;
        rewrite Hinfo; reflexivity).
  erewrite bind_inr.
  2:{ rewrite lift_run. f_equal. rewrite <- Hurls. unfold mbind, exn_bind. simpl.
      by rewrite lookup_insert_ne. }
  rewrite lift_run. unfold setitem2, mbind, exn_bind. simpl.
  rewrite lookup_insert_eq. simpl. by rewrite insert_insert_eq.
Qed.

(** X7: the record's own [download_info] has [downloaded] and no
    [Downloaded]: when lines 96-112 are done, the record holds
    [downloaded = max(d, N - 1)], for the [d] it held and the [N] that
    [len] answers for the directory, and [total_URLS] is the length of
    its [download]; the world is untouched. *)
Theorem adjust_corrects_count len d info dir w n0 n c :
  d !! "download_info" = Some (JDict info) →
  info !! "Downloaded" = None →
  info !! "downloaded" = Some (JInt n0) →
  dir ∈ dirs w →
  len (entries w dir) = inr n →
  Py.getitem (JDict d) "download" ≫= Py.len = inr c →
  adjust_download_info len (JDict d) dir w
  = (inr (JDict (<["download_info" :=
                   JDict (<["total_URLS" := JInt c]>
                            (<["downloaded" := JInt (Z.max n0 (n - 1))]> info))]> d)),
     w).
Proof.
  intros Hinfo Hlegacy Hcanonical Hdir Hlen Hurls.
  rewrite adjust_download_info_unfold.
  erewrite bind_inr by (rewrite lift_run; simpl; rewrite Hinfo; reflexivity).
  erewrite bind_inr by (rewrite lift_run; simpl; reflexivity).
  rewrite bool_decide_eq_false_2 by (rewrite Hlegacy; by intros [? [=]]).
  erewrite bind_inr.
  2:{ rewrite lift_run. unfold getitem2, mbind, exn_bind. simpl. rewrite Hinfo. simpl.
      rewrite bool_decide_eq_true_2 by (rewrite Hcanonical; by eexists).
      rewrite Hcanonical. reflexivity. }
  by apply correct_and_store_int.
Qed.

Lemma adjust_corrects_count_witness :
  let info : gmap string JSON := {[ "downloaded" := JInt 1; "total_URLS" := JInt 99 ]} in
  let d : gmap string JSON := <["download_info" := JDict info]> record7_fields in
  let w := world7 ["a.csv"; "b.csv"; "c.csv"; "d.csv"] (Some descriptor7_bare) in
  d !! "download_info" = Some (JDict info) ∧
  info !! "Downloaded" = None ∧
  info !! "downloaded" = Some (JInt 1) ∧
  dir7 ∈ dirs w ∧
  count_entries (entries w dir7) = inr 5 ∧
  Py.getitem (JDict d) "download" ≫= Py.len = inr 3 ∧
  adjust_download_info count_entries (JDict d) dir7 w
  = (inr (JDict (<["download_info" :=
                   JDict (<["total_URLS" := JInt 3]>
                            (<["downloaded" := JInt (Z.max 1 (5 - 1))]> info))]> d)),
     w).
Proof.
  intros info d w.
  split; [vm_compute; reflexivity|].
  split; [vm_compute; reflexivity|].
  split; [vm_compute; reflexivity|].
  split; [by_compute|].
  split; [vm_compute; reflexivity|].
  split; [vm_compute; reflexivity|].
  apply (adjust_corrects_count count_entries d info dir7 w 1 5 3).
  - vm_compute; reflexivity.
  - vm_compute; reflexivity.
  - vm_compute; reflexivity.
  - by_compute.
  - vm_compute; reflexivity.
  - vm_compute; reflexivity.
Defined.





(** ** The errors of Repair *)

Lemma load_run path w doc :
  path ∉ dirs w → files w !! path = Some (Document doc) →
  Os.load path w = (inr doc, w).
Proof.
  intros Hdir Hfile. unfold Os.load.
  rewrite bool_decide_eq_false_2 by done. by rewrite Hfile.
Qed.

(** With a descriptor that loads and has a [download_info], Repair is
    lines 96-112 followed by the write of the loaded document. *)
Lemma checkDownloadInfo_present len dataset dir path w doc :
  path ∉ dirs w → files w !! path = Some (Document doc) →
  Py.contains "download_info" doc = inr true →
  checkDownloadInfo len dataset dir path w
  = match adjust_download_info len dataset dir w with
    | (inr dataset', _) =>
        (inr dataset', mkWorld (dirs w) (files w) (trace w ++ [Written path doc]))
    | (inl e, _) => (inl e, w)
    end.
Proof.
  intros Hdir Hfile Hpresent. unfold checkDownloadInfo.
  erewrite bind_inr by by apply load_run.
  erewrite bind_inr by (rewrite lift_run, Hpresent; reflexivity).
  destruct (adjust_download_info len dataset dir w) as [[e|dataset'] w1] eqn:E;
    apply keeps_run in E as Hw; try apply keeps_adjust_download_info; subst w1.
  - apply bind_inl. by apply bind_inl.
  - erewrite bind_inr by (erewrite bind_inr by done; reflexivity).
    cbv beta iota. erewrite bind_inr.
    2:{ unfold Os.dump. rewrite bool_decide_eq_false_2 by done.
        rewrite bool_decide_eq_true_2 by by eexists. reflexivity. }
    unfold mret, M_ret. by rewrite insert_id.
Qed.



(** X11: a record that is a dictionary without [download_info], as the
    records of the catalog are, against a descriptor that has one: line
    99 raises [KeyError('download_info')] and nothing is written,
    whatever the directory holds. *)
Theorem repair_record_without_download_info len d dir path w doc :
  path ∉ dirs w →
  files w !! path = Some (Document doc) →
  Py.contains "download_info" doc = inr true →
  d !! "download_info" = None →
  checkDownloadInfo len (JDict d) dir path w = (inl (KeyError "download_info"), w).
Proof.
  intros Hdir Hfile Hpresent Hinfo.
  rewrite (checkDownloadInfo_present _ _ _ _ _ doc) by done.
  rewrite adjust_download_info_unfold.
  erewrite bind_inl; [done|].
  rewrite lift_run. simpl. by rewrite Hinfo.
Qed.

Lemma repair_record_without_download_info_witness :
  let stored := descriptor7 {[ "downloaded" := JInt 1; "total_URLS" := JInt 3 ]} in
  let w := world7 ["a.csv"] (Some stored) in
  (json7 ∉ dirs w) ∧
  files w !! json7 = Some (Document stored) ∧
  Py.contains "download_info" stored = inr true ∧
  record7_fields !! "download_info" = None ∧
  checkDownloadInfo count_entries (JDict record7_fields) dir7 json7 w
  = (inl (KeyError "download_info"), w).
Proof.
  intros stored w.
  split; [by_compute|].
  split; [vm_compute; reflexivity|].
  split; [vm_compute; reflexivity|].
  split; [vm_compute; reflexivity|].
  apply (repair_record_without_download_info count_entries record7_fields dir7 json7 w stored).
  - by_compute.
  - vm_compute; reflexivity.
  - vm_compute; reflexivity.
  - vm_compute; reflexivity.
Defined.

(** X12: a descriptor file that does not parse stops Repair with the
    error of [json.load]; the file is not overwritten. *)
Theorem repair_unparsable_descriptor len dataset dir path w :
  path ∉ dirs w →
  files w !! path = Some Unparsable →
  checkDownloadInfo len dataset dir path w = (inl JSONDecodeError, w).
Proof.
  intros Hdir Hfile. unfold checkDownloadInfo. apply bind_inl.
  unfold Os.load. rewrite bool_decide_eq_false_2 by done. by rewrite Hfile.
Qed.

Lemma repair_unparsable_descriptor_witness :
  let w := mkWorld {[ dir7 ]} {[ json7 := Unparsable ]} [] in
  (json7 ∉ dirs w) ∧
  files w !! json7 = Some Unparsable ∧
  checkDownloadInfo count_entries record7 dir7 json7 w = (inl JSONDecodeError, w).
Proof.
  intros w.
  split; [by_compute|].
  split; [vm_compute; reflexivity|].
  apply (repair_unparsable_descriptor count_entries record7 dir7 json7 w).
  - by_compute.
  - vm_compute; reflexivity.
Defined.

(** X13: when Repair raises, at whatever line, the world is the one it
    started in: the one write of [checkDownloadInfo] is its last step
    that can raise. *)
Theorem repair_raise_keeps_world len dataset dir path w e w' :
  checkDownloadInfo len dataset dir path w = (inl e, w') → w' = w.
Proof.
  intros H.
  by apply checkDownloadInfo_inv in H as [(e' & _ & ->)|(? & ? & [=] & _)].
Qed.

Lemma repair_raise_keeps_world_witness :
  let w := world7 ["a.csv"] (Some descriptor7_bare) in
  checkDownloadInfo count_entries record7 dir7 json7 w
  = (inl (KeyError "download_info"), w) ∧ w = w.
Proof.
  intros w. split; [vm_compute; reflexivity|].
  apply (repair_raise_keeps_world count_entries record7 dir7 json7 w
           (KeyError "download_info")).
  vm_compute; reflexivity.
Defined.

(** ** When [len] has no answer *)

Lemma len_scandir_raises len :
  (∀ es, ∃ e, len es = inl e) →
  ∀ p w, ∃ e, len_scandir len p w = (inl e, w).
Proof.
  intros Hlen p w. unfold len_scandir, mbind, M_bind, Os.scandir.
  case_bool_decide.
  - destruct (Hlen (entries w p)) as [e He]. exists e. by rewrite lift_run, He.
  - case_bool_decide; by eexists.
Qed.

Lemma checkDownloadInfo_needs_len len dataset dir path w :
  (∀ es, ∃ e, len es = inl e) →
  ∃ e, checkDownloadInfo len dataset dir path w = (inl e, w).
Proof.
  intros Hlen.
  destruct (checkDownloadInfo len dataset dir path w) as [r w'] eqn:E.
  apply checkDownloadInfo_inv in E
    as [(e & -> & ->)|(d' & doc & _ & _ & _ & Hadj & _)]; [by exists e|].
  exfalso. rewrite adjust_download_info_unfold in Hadj.
  step Hadj info w1 Hinfo. clear Hinfo.
  step Hadj legacy w2 Hlegacy. clear Hlegacy.
  step Hadj found w3 Hfound. clear Hfound.
  destruct found as [ndownloaded dataset2]. unfold correct_and_store in Hadj.
  step Hadj n w4 Hn.
  destruct (len_scandir_raises len Hlen dir w3) as [e He]. congruence.
Qed.

(** X14: [len] raising on what [os.scandir] returns, as CPython's does,
    makes every Repair raise: both branches of [checkDownloadInfo] ask
    for the length before the write, so no descriptor is ever written
    back and the world is left as it is. *)
Theorem repair_raises_when_len_does len dataset dir path w :
  (∀ es, ∃ e, len es = inl e) →
  ∃ e, checkDownloadInfo len dataset dir path w = (inl e, w).
Proof. apply checkDownloadInfo_needs_len. Qed.

Lemma repair_raises_when_len_does_witness :
  let stored := descriptor7 {[ "downloaded" := JInt 1; "total_URLS" := JInt 3 ]} in
  let dataset := record7_with {[ "downloaded" := JInt 1; "total_URLS" := JInt 3 ]} in
  let w := world7 ["a.csv"] (Some stored) in
  (∀ es, ∃ e, no_len es = inl e) ∧
  ∃ e, checkDownloadInfo no_len dataset dir7 json7 w = (inl e, w).
Proof.
  intros stored dataset w.
  split; [intros es; by exists TypeError|].
  apply (repair_raises_when_len_does no_len dataset dir7 json7 w).
  intros es. by exists TypeError.
Defined.

(** ** One record of the catalog *)

Lemma annotate_paths len d id w :
  d !! "dataset_id" = Some (JStr id) →
  annotate len (JDict d) w
  = (let directory := datasets_directory_path ++ "/dataset-" ++ id in
     downloaded ← Os.path_exists directory;
     if downloaded : bool then
       annotated ← Os.path_exists (directory ++ "/dataset.json");
       if negb annotated then
         Os.print ("Annotating dataset: " ++ id ++ " creating the json file");;
         createDatasetJSONFile len (JDict d) directory
       else
         checkDownloadInfo len (JDict d) directory (directory ++ "/dataset.json");;
         mret tt
     else mret tt) w.
Proof.
  intros Hid. unfold annotate.
  erewrite bind_inr by (rewrite lift_run; simpl; by rewrite Hid).
  erewrite bind_inr by (rewrite lift_run; reflexivity).
  erewrite bind_inr by (rewrite lift_run; reflexivity).
  reflexivity.
Qed.

(** X15: a record without [dataset_id] stops its turn of the loop at
    line 142 with [KeyError('dataset_id')], before any file is looked
    at; the world is left as it is. *)
Theorem annotate_missing_identifier len d w :
  d !! "dataset_id" = None →
  annotate len (JDict d) w = (inl (KeyError "dataset_id"), w).
Proof.
  intros Hid. unfold annotate. apply bind_inl.
  rewrite lift_run. simpl. by rewrite Hid.
Qed.

Lemma annotate_missing_identifier_witness :
  let d : gmap string JSON := {[ "title" := JStr "Air quality" ]} in
  d !! "dataset_id" = None ∧
  annotate count_entries (JDict d) (world7 [] None)
  = (inl (KeyError "dataset_id"), world7 [] None).
Proof.
  intros d. split; [vm_compute; reflexivity|].
  apply (annotate_missing_identifier count_entries d (world7 [] None)).
  vm_compute; reflexivity.
Defined.

(** X16: a record whose [dataset_id] is not a string (a number, say)
    stops its turn at line 143 with [TypeError], from the [+] that builds
    the directory path; the world is left as it is. *)
Theorem annotate_identifier_not_string len d v w :
  d !! "dataset_id" = Some v →
  (∀ s, v ≠ JStr s) →
  annotate len (JDict d) w = (inl TypeError, w).
Proof.
  intros Hid Hv. unfold annotate.
  erewrite bind_inr by (rewrite lift_run; simpl; by rewrite Hid).
  apply bind_inl. rewrite lift_run.
  destruct v as [| | | |s| |]; try done. by destruct (Hv s).
Qed.

Lemma annotate_identifier_not_string_witness :
  let d : gmap string JSON := {[ "dataset_id" := JInt 7 ]} in
  d !! "dataset_id" = Some (JInt 7) ∧
  (∀ s, JInt 7 ≠ JStr s) ∧
  annotate count_entries (JDict d) (world7 [] None) = (inl TypeError, world7 [] None).
Proof.
  intros d. split; [vm_compute; reflexivity|]. split; [done|].
  apply (annotate_identifier_not_string count_entries d (JInt 7) (world7 [] None)).
  - vm_compute; reflexivity.
  - done.
Defined.

(** ** The loop of [main] *)

Lemma annotate_skip_run len dataset w :
  not_downloaded w dataset → annotate len dataset w = (inr tt, w).
Proof.
  intros (d & id & -> & Hid & Habsent).
  rewrite (annotate_paths len d id) by done. cbv zeta.
  erewrite bind_inr by reflexivity. by rewrite Habsent.
Qed.

Lemma for_each_skip len records w :
  Forall (not_downloaded w) records →
  for_each records (annotate len) w = (inr tt, w).
Proof.
  induction 1 as [|x rest Hx _ IH]; [done|]. simpl.
  erewrite bind_inr by by apply annotate_skip_run. exact IH.
Qed.

Lemma for_each_app xs ys body w :
  for_each (xs ++ ys) body w
  = match for_each xs body w with
    | (inr _, w1) => for_each ys body w1
    | (inl e, w1) => (inl e, w1)
    end.
Proof.
  revert w. induction xs as [|x xs IH]; intros w; [done|]. simpl.
  unfold mbind, M_bind. destruct (body x w) as [[e|[]] w1]; [done|]. apply IH.
Qed.

(** A record that was downloaded and has no descriptor: its turn prints
    the line of line 154 and raises in Create. *)
Lemma annotate_create_run len d id w :
  d !! "dataset_id" = Some (JStr id) →
  exists_in w (datasets_directory_path ++ "/dataset-" ++ id) = true →
  exists_in w ((datasets_directory_path ++ "/dataset-" ++ id) ++ "/dataset.json") = false →
  ∃ e, annotate len (JDict d) w
       = (inl e, mkWorld (dirs w) (files w)
                   (trace w ++ [Printed ("Annotating dataset: " ++ id
                                         ++ " creating the json file")])).
Proof.
  intros Hid Hdir Hjson.
  rewrite (annotate_paths len d id) by done. cbv zeta.
  erewrite bind_inr by reflexivity. rewrite Hdir.
  erewrite bind_inr by reflexivity. rewrite Hjson. unfold negb.
  erewrite bind_inr by reflexivity.
  apply createDatasetJSONFile_raises.
Qed.

Lemma main_loop len c records w :
  json_datasets_list_path ∉ dirs w →
  files w !! json_datasets_list_path = Some (Document (JDict c)) →
  c !! "datasets" = Some (JList records) →
  main len w
  = (for_each records (annotate len);; Os.print "END ANNOTATION")
      (mkWorld (dirs w) (files w) (trace w ++ [Printed "START ANNOTATION"])).
Proof.
  intros Hdir Hfile Hrecords. unfold main.
  erewrite bind_inr by by apply load_run.
  erewrite bind_inr by reflexivity.
  erewrite bind_inr by (rewrite lift_run; simpl; by rewrite Hrecords).
  erewrite bind_inr by (rewrite lift_run; reflexivity).
  reflexivity.
Qed.

(** X18: a catalog none of whose records was downloaded: the run goes
    through every record, raises nothing, prints its first and its last
    line and nothing between, and leaves every directory and file as it
    is. *)
Theorem main_nothing_downloaded len c records w :
  json_datasets_list_path ∉ dirs w →
  files w !! json_datasets_list_path = Some (Document (JDict c)) →
  c !! "datasets" = Some (JList records) →
  Forall (not_downloaded w) records →
  main len w
  = (inr tt, mkWorld (dirs w) (files w)
               (trace w ++ [Printed "START ANNOTATION"; Printed "END ANNOTATION"])).
Proof.
  intros Hdir Hfile Hrecords Hskip.
  rewrite (main_loop len c records) by done.
  erewrite bind_inr by (apply for_each_skip; exact Hskip).
  unfold Os.print. simpl. by rewrite <- app_assoc.
Qed.

(** X19: the first record that was downloaded and has no descriptor
    ends the run: the records before it, not downloaded, are passed
    over, its turn prints the line of line 154 and raises in Create, and
    the records after it are never looked at; the last line of the run
    is not printed and no file has changed. *)
Theorem main_aborts_at_first_create len c skipped d id rest w :
  json_datasets_list_path ∉ dirs w →
  files w !! json_datasets_list_path = Some (Document (JDict c)) →
  c !! "datasets" = Some (JList (skipped ++ JDict d :: rest)) →
  Forall (not_downloaded w) skipped →
  d !! "dataset_id" = Some (JStr id) →
  exists_in w (datasets_directory_path ++ "/dataset-" ++ id) = true →
  exists_in w ((datasets_directory_path ++ "/dataset-" ++ id) ++ "/dataset.json") = false →
  ∃ e, main len w
       = (inl e, mkWorld (dirs w) (files w)
                   (trace w ++ [Printed "START ANNOTATION";
                                Printed ("Annotating dataset: " ++ id
                                         ++ " creating the json file")])).
Proof.
  intros Hdir Hfile Hrecords Hskip Hid Hdownloaded Hjson.
  rewrite (main_loop len c (skipped ++ JDict d :: rest)) by done.
  set (w1 := mkWorld (dirs w) (files w) (trace w ++ [Printed "START ANNOTATION"])).
  destruct (annotate_create_run len d id w1 Hid Hdownloaded Hjson) as [e He].
  exists e. apply bind_inl. rewrite for_each_app.
  rewrite (for_each_skip len skipped w1) by exact Hskip. simpl.
  erewrite bind_inl by exact He. subst w1. simpl. by rewrite <- app_assoc.
Qed.

(** X20: a catalog document without the key [datasets] stops the run at
    line 140 with [KeyError('datasets')], after the first line was
    printed. *)
Theorem main_catalog_without_datasets len c w :
  json_datasets_list_path ∉ dirs w →
  files w !! json_datasets_list_path = Some (Document (JDict c)) →
  c !! "datasets" = None →
  main len w
  = (inl (KeyError "datasets"),
     mkWorld (dirs w) (files w) (trace w ++ [Printed "START ANNOTATION"])).
Proof.
  intros Hdir Hfile Hrecords. unfold main.
  erewrite bind_inr by by apply load_run.
  erewrite bind_inr by reflexivity.
  apply bind_inl. rewrite lift_run. simpl. by rewrite Hrecords.
Qed.

Lemma main_nothing_downloaded_witness :
  let w := with_catalog [record7] empty_world in
  let c : gmap string JSON := {[ "datasets" := JList [record7] ]} in
  (json_datasets_list_path ∉ dirs w) ∧
  files w !! json_datasets_list_path = Some (Document (JDict c)) ∧
  c !! "datasets" = Some (JList [record7]) ∧
  Forall (not_downloaded w) [record7] ∧
  main count_entries w
  = (inr tt, mkWorld (dirs w) (files w)
               (trace w ++ [Printed "START ANNOTATION"; Printed "END ANNOTATION"])).
Proof.
  intros w c.
  assert (Forall (not_downloaded w) [record7]) as Hskip.
  { constructor; [ |constructor]. exists record7_fields, "7".
    repeat split; vm_compute; reflexivity. }
  split; [by_compute|].
  split; [vm_compute; reflexivity|].
  split; [vm_compute; reflexivity|].
  split; [exact Hskip|].
  apply (main_nothing_downloaded count_entries c [record7] w).
  - by_compute.
  - vm_compute; reflexivity.
  - vm_compute; reflexivity.
  - exact Hskip.
Defined.

Lemma main_aborts_at_first_create_witness :
  let w := with_catalog [record7; JNull] (world7 ["a.csv"] None) in
  let c : gmap string JSON := {[ "datasets" := JList [record7; JNull] ]} in
  (json_datasets_list_path ∉ dirs w) ∧
  files w !! json_datasets_list_path = Some (Document (JDict c)) ∧
  c !! "datasets" = Some (JList ([] ++ JDict record7_fields :: [JNull])) ∧
  Forall (not_downloaded w) [] ∧
  record7_fields !! "dataset_id" = Some (JStr "7") ∧
  exists_in w (datasets_directory_path ++ "/dataset-" ++ "7") = true ∧
  exists_in w ((datasets_directory_path ++ "/dataset-" ++ "7") ++ "/dataset.json") = false ∧
  ∃ e, main count_entries w
       = (inl e, mkWorld (dirs w) (files w)
                   (trace w ++ [Printed "START ANNOTATION";
                                Printed ("Annotating dataset: " ++ "7"
                                         ++ " creating the json file")])).
Proof.
  intros w c.
  split; [by_compute|].
  split; [vm_compute; reflexivity|].
  split; [vm_compute; reflexivity|].
  split; [constructor|].
  split; [vm_compute; reflexivity|].
  split; [vm_compute; reflexivity|].
  split; [vm_compute; reflexivity|].
  apply (main_aborts_at_first_create count_entries c [] record7_fields "7" [JNull] w).
  - by_compute.
  - vm_compute; reflexivity.
  - vm_compute; reflexivity.
  - constructor.
  - vm_compute; reflexivity.
  - vm_compute; reflexivity.
  - vm_compute; reflexivity.
Defined.

Lemma main_catalog_without_datasets_witness :
  let c : gmap string JSON := {[ "records" := JList [record7] ]} in
  let w := mkWorld ∅ {[ json_datasets_list_path := Document (JDict c) ]} [] in
  (json_datasets_list_path ∉ dirs w) ∧
  files w !! json_datasets_list_path = Some (Document (JDict c)) ∧
  c !! "datasets" = None ∧
  main count_entries w
  = (inl (KeyError "datasets"),
     mkWorld (dirs w) (files w) (trace w ++ [Printed "START ANNOTATION"])).
Proof.
  intros c w.
  split; [by_compute|].
  split; [vm_compute; reflexivity|].
  split; [vm_compute; reflexivity|].
  apply (main_catalog_without_datasets count_entries c w).
  - by_compute.
  - vm_compute; reflexivity.
  - vm_compute; reflexivity.
Defined.

(** ** What a run prints and writes *)

Lemma prints_only_of_world {A} (m : M A) : keeps_world m → prints_only m.
Proof.
  intros K w. exists []. rewrite K. destruct w. simpl. by rewrite app_nil_r.
Qed.

Lemma prints_only_bind {A B} (m : M A) (k : A → M B) :
  prints_only m → (∀ a, prints_only (k a)) → prints_only (m ≫= k).
Proof.
  intros Hm Hk w. unfold mbind, M_bind.
  destruct (Hm w) as [l1 H1]. destruct (m w) as [[e|a] w1]; simpl in *.
  - by exists l1.
  - destruct (Hk a w1) as [l2 H2]. exists (l1 ++ l2)%list.
    rewrite H2, H1. simpl. by rewrite fmap_app, app_assoc.
Qed.

Lemma prints_only_print line : prints_only (Os.print line).
Proof. intros w. by exists [line]. Qed.

Lemma prints_only_create len dataset dir :
  prints_only (createDatasetJSONFile len dataset dir).
Proof.
  intros w. destruct (createDatasetJSONFile_raises len dataset dir w) as [e ->].
  exists []. destruct w. simpl. by rewrite app_nil_r.
Qed.

Lemma prints_only_repair len dataset dir path :
  (∀ es, ∃ e, len es = inl e) →
  prints_only (checkDownloadInfo len dataset dir path).
Proof.
  intros Hlen w.
  destruct (checkDownloadInfo_needs_len len dataset dir path w Hlen) as [e ->].
  exists []. destruct w. simpl. by rewrite app_nil_r.
Qed.

Lemma prints_only_for_each items body :
  (∀ x, prints_only (body x)) → prints_only (for_each items body).
Proof.
  intros Hbody. induction items as [|x rest IH]; simpl.
  - apply prints_only_of_world, keeps_ret.
  - apply prints_only_bind; [apply Hbody|by intros _].
Qed.

#[global] Hint Resolve prints_only_of_world prints_only_print prints_only_create
  prints_only_repair prints_only_for_each : keeps.

Ltac prints_only :=
  repeat first
    [ solve [auto with keeps]
    | apply prints_only_bind
    | next_binder
    | match goal with |- prints_only (if ?b then _ else _) => destruct b end ].

Lemma prints_only_annotate len dataset :
  (∀ es, ∃ e, len es = inl e) → prints_only (annotate len dataset).
Proof. intros Hlen. unfold annotate. prints_only. Qed.

(** X21: with a [len] that raises on what [os.scandir] returns, as
    CPython's does, a run of the script writes no file at all: whatever
    the catalog and the directories, it leaves the directories and the
    files as they are and adds printed lines only to the trace. *)
Theorem main_prints_only_when_len_raises len :
  (∀ es, ∃ e, len es = inl e) → prints_only (main len).
Proof.
  intros Hlen. unfold main.
  pose proof (λ dataset, prints_only_annotate len dataset Hlen).
  prints_only.
Qed.

Lemma main_prints_only_when_len_raises_witness :
  (∀ es, ∃ e, no_len es = inl e) ∧ prints_only (main no_len).
Proof.
  split; [intros es; by exists TypeError|].
  apply (main_prints_only_when_len_raises no_len).
  intros es. by exists TypeError.
Defined.

(** ** Where the adjustment of Repair lands *)

Lemma len_scandir_inr len p w n w' :
  len_scandir len p w = (inr n, w') →
  w' = w ∧ p ∈ dirs w ∧ len (entries w p) = inr n.
Proof.
  unfold len_scandir, mbind, M_bind, Os.scandir.
  case_bool_decide; [ |case_bool_decide; by inversion 1].
  rewrite lift_run. by intros [= -> ->].
Qed.

(** Lines 106-112, when they return. *)
Lemma correct_and_store_inv len dir ndownloaded dataset2 w dataset' w' :
  correct_and_store len dir (ndownloaded, dataset2) w = (inr dataset', w') →
  ∃ d2 info2 n stale c,
    dataset2 = JDict d2 ∧ d2 !! "download_info" = Some (JDict info2) ∧
    dir ∈ dirs w ∧ len (entries w dir) = inr n ∧
    Py.lt_int ndownloaded (n - 1) = inr stale ∧
    Py.getitem dataset2 "download" ≫= Py.len = inr c ∧
    dataset' = JDict (<["download_info" :=
                 JDict (<["total_URLS" := JInt c]>
                          (<["downloaded" :=
                              if stale : bool then JInt (n - 1) else ndownloaded]> info2))]> d2) ∧
    w' = w.
Proof.
  unfold correct_and_store. intros H.
  step H n w1 Hn. apply len_scandir_inr in Hn as (-> & Hdir & Hlen).
  step H stale w2 Hstale. lifted Hstale.
  step H nd w3 Hnd.
  assert (nd = (if stale then JInt (n - 1) else ndownloaded) ∧ w3 = w) as [-> ->].
  { destruct stale.
    - step Hnd n' w4 Hn'. apply len_scandir_inr in Hn' as (-> & _ & Hlen').
      rewrite Hlen in Hlen'. injection Hlen' as <-. by injection Hnd as <- <-.
    - by injection Hnd as <- <-. }
  step H dataset3 w4 H3. lifted H3.
  step H c w5 Hc. lifted Hc.
  lifted H.
  pose proof H3 as Hother.
  apply setitem2_inr in H3 as (d2 & info2 & -> & Hinfo2 & ->).
  apply setitem2_inr in H as (d3 & info3 & [= <-] & Hinfo3 & ->).
  rewrite lookup_insert_eq in Hinfo3. injection Hinfo3 as <-.
  exists d2, info2, n, stale, c. repeat split; try done.
  - rewrite <- (setitem2_other _ _ _ _ _ "download" Hother) by done. exact Hc.
  - by rewrite insert_insert_eq.
Qed.

(** Lines 99-104, when they give a count and what follows finds a
    [download_info] dictionary in the record they leave. *)
Lemma found_inv dataset info_json (legacy : bool) ndownloaded d2 info2 :
  Py.getitem dataset "download_info" = inr info_json →
  Py.contains "Downloaded" info_json = inr legacy →
  (if legacy then
     n ← getitem2 dataset "download_info" "Downloaded";
     dataset ← delitem2 dataset "download_info" "Downloaded";
     dataset ← delitem2 dataset "download_info" "Total_URLS";
     mret (n, dataset)
   else
     info ← Py.getitem dataset "download_info";
     canonical ← Py.contains "downloaded" info;
     if canonical : bool then
       n ← getitem2 dataset "download_info" "downloaded";
       mret (n, dataset)
     else mret (JInt 0, dataset)) = inr (ndownloaded, JDict d2) →
  d2 !! "download_info" = Some (JDict info2) →
  ∃ d info,
    dataset = JDict d ∧ d !! "download_info" = Some (JDict info) ∧
    (is_Some (info !! "Downloaded") → is_Some (info !! "Total_URLS")) ∧
    ndownloaded = stored_count info ∧
    info2 = migrated info ∧
    d2 = <["download_info" := JDict (migrated info)]> d.
Proof.
  intros Hinfo Hlegacy Hfound Hinfo2.
  destruct dataset as [| | | | | |d]; try done. simpl in Hinfo.
  destruct (d !! "download_info") as [x|] eqn:Hd; [ |done].
  injection Hinfo as <-. exists d.
  destruct legacy.
  - unfold getitem2, delitem2, mbind, exn_bind, mret, exn_ret in Hfound.
    simpl in Hfound. rewrite Hd in Hfound.
    destruct x as [| | | | | |info]; try done. simpl in Hfound.
    destruct (info !! "Downloaded") as [n|] eqn:Hn; [ |done]. simpl in Hfound.
    rewrite lookup_insert_eq in Hfound. simpl in Hfound.
    rewrite lookup_delete_ne in Hfound by done.
    destruct (info !! "Total_URLS") as [t|] eqn:Ht; [ |done]. simpl in Hfound.
    rewrite insert_insert_eq in Hfound. injection Hfound as <- <-.
    rewrite lookup_insert_eq in Hinfo2. injection Hinfo2 as <-.
    exists info. unfold stored_count, migrated. rewrite Hn.
    repeat split; try done; by eexists.
  - unfold getitem2, mbind, exn_bind, mret, exn_ret in Hfound.
    simpl in Hfound. rewrite Hd in Hfound.
    assert (JDict d2 = JDict d ∧
            ndownloaded = match Py.getitem x "downloaded" with
                          | inr n => n
                          | inl _ => JInt 0
                          end) as [[= ->] ->].
    { destruct (Py.contains "downloaded" x) as [|[]] eqn:Hc; [done| |].
      - destruct (Py.getitem x "downloaded"); [done|]. by injection Hfound as <- <-.
      - injection Hfound as <- <-.
        by destruct (contains_false_getitem _ _ Hc) as [e ->]. }
    rewrite Hd in Hinfo2. injection Hinfo2 as ->.
    simpl in Hlegacy. injection Hlegacy as Hlegacy%bool_decide_eq_false.
    assert (info2 !! "Downloaded" = None) as Hn.
    { destruct (info2 !! "Downloaded") eqn:E; [ |done]. destruct Hlegacy. by eexists. }
    exists info2. unfold stored_count, migrated. rewrite Hn.
    repeat split; try done.
    + simpl. by destruct (info2 !! "downloaded").
    + by rewrite insert_id.
Qed.

(** Lines 96-112, when they return: what they were given and what they
    leave in the catalog record. *)
Lemma adjust_download_info_inv len dataset dir w dataset' w' :
  adjust_download_info len dataset dir w = (inr dataset', w') →
  ∃ d info n stale c,
    dataset = JDict d ∧ d !! "download_info" = Some (JDict info) ∧
    (is_Some (info !! "Downloaded") → is_Some (info !! "Total_URLS")) ∧
    dir ∈ dirs w ∧ len (entries w dir) = inr n ∧
    Py.lt_int (stored_count info) (n - 1) = inr stale ∧
    Py.getitem dataset "download" ≫= Py.len = inr c ∧
    dataset' = JDict (<["download_info" :=
                 JDict (<["total_URLS" := JInt c]>
                          (<["downloaded" :=
                              if stale : bool then JInt (n - 1) else stored_count info]>
                             (migrated info)))]> d) ∧
    w' = w.
Proof.
  rewrite adjust_download_info_unfold. intros H.
  step H info_json w1 Hinfo. lifted Hinfo.
  step H legacy w2 Hlegacy. lifted Hlegacy.
  step H found w3 Hfound. destruct found as [ndownloaded dataset2].
  assert (w3 = w ∧
          (if legacy then
             n ← getitem2 dataset "download_info" "Downloaded";
             dataset ← delitem2 dataset "download_info" "Downloaded";
             dataset ← delitem2 dataset "download_info" "Total_URLS";
             mret (n, dataset)
           else
             info ← Py.getitem dataset "download_info";
             canonical ← Py.contains "downloaded" info;
             if canonical : bool then
               n ← getitem2 dataset "download_info" "downloaded";
               mret (n, dataset)
             else mret (JInt 0, dataset)) = inr (ndownloaded, dataset2))
    as [-> Hpure].
  { destruct legacy; lifted Hfound; by split. }
  apply correct_and_store_inv in H
    as (d2 & info2 & n & stale & c & -> & Hinfo2 & Hdir & Hlen & Hstale & Hc & -> & ->).
  destruct (found_inv _ _ _ _ _ _ Hinfo Hlegacy Hpure Hinfo2)
    as (d & info & -> & Hd & Hsibling & -> & -> & ->).
  exists d, info, n, stale, c. repeat split; try done.
  - rewrite <- Hc. unfold mbind, exn_bind. simpl. by rewrite lookup_insert_ne.
  - by rewrite insert_insert_eq.
Qed.

(** C9: when the loaded descriptor has a [download_info] and Repair
    returns, the one write of the call puts back at the descriptor's path
    the document that was loaded, so the files are what they were.  The
    adjustment is all in the catalog record the call was given, which had
    a [download_info] dictionary of its own: its legacy names are
    deleted, its [downloaded] is the count it held, raised to [n - 1]
    when below it ([max(d, n - 1)] for an integer [d]), [n] being what
    [len] answers for the directory, and its [total_URLS] is the length
    of its [download]. *)
Theorem repair_writes_back_loaded len dataset dir path w doc dataset' w' :
  files w !! path = Some (Document doc) →
  Py.contains "download_info" doc = inr true →
  checkDownloadInfo len dataset dir path w = (inr dataset', w') →
  w' = mkWorld (dirs w) (files w) (trace w ++ [Written path doc]) ∧
  ∃ d info n stale c,
    dataset = JDict d ∧ d !! "download_info" = Some (JDict info) ∧
    len (entries w dir) = inr n ∧
    Py.lt_int (stored_count info) (n - 1) = inr stale ∧
    Py.getitem dataset "download" ≫= Py.len = inr c ∧
    dataset' = JDict (<["download_info" :=
                 JDict (<["total_URLS" := JInt c]>
                          (<["downloaded" :=
                              if stale : bool then JInt (n - 1) else stored_count info]>
                             (migrated info)))]> d) ∧
    (∀ n0, stored_count info = JInt n0 →
           download_info_field "downloaded" dataset' = Some (JInt (Z.max n0 (n - 1)))) ∧
    download_info_field "total_URLS" dataset' = Some (JInt c) ∧
    download_info_field "Downloaded" dataset' = None ∧
    (is_Some (info !! "Downloaded") →
     download_info_field "Total_URLS" dataset' = None).
Proof.
  intros Hfile _ H.
  apply checkDownloadInfo_inv in H
    as [(e & [=] & _)|(d' & doc' & [= <-] & Hfile' & _ & Hadj & ->)].
  rewrite Hfile in Hfile'. injection Hfile' as <-.
  split; [done|].
  apply adjust_download_info_inv in Hadj
    as (d & info & n & stale & c & -> & Hd & _ & _ & Hlen & Hstale & Hc & -> & _).
  exists d, info, n, stale, c.
  unfold download_info_field. simpl. rewrite lookup_insert_eq. simpl.
  repeat split; try done.
  - intros n0 Hn0. rewrite Hn0 in Hstale |- *. injection Hstale as <-.
    rewrite lookup_insert_ne, lookup_insert_eq by done.
    destruct (Z.ltb_spec n0 (n - 1)); do 2 f_equal; lia.
  - by rewrite lookup_insert_eq.
  - rewrite !lookup_insert_ne by done. unfold migrated.
    destruct (info !! "Downloaded") eqn:E; [ |done].
    by rewrite lookup_delete_ne, lookup_delete_eq.
  - intros [x Hx]. rewrite !lookup_insert_ne by done. unfold migrated.
    rewrite Hx. by rewrite lookup_delete_eq.
Qed.

Lemma repair_writes_back_loaded_witness :
  let legacy : gmap string JSON := {[ "Downloaded" := JInt 1; "Total_URLS" := JInt 99 ]} in
  let stored := descriptor7 legacy in
  let w := world7 ["a.csv"; "b.csv"; "c.csv"; "d.csv"] (Some stored) in
  let dataset := record7_with legacy in
  let dataset' := record7_with {[ "downloaded" := JInt 4; "total_URLS" := JInt 3 ]} in
  let w' := mkWorld (dirs w) (files w) [Written json7 stored] in
  files w !! json7 = Some (Document stored) ∧
  Py.contains "download_info" stored = inr true ∧
  checkDownloadInfo count_entries dataset dir7 json7 w = (inr dataset', w') ∧
  w' = mkWorld (dirs w) (files w) (trace w ++ [Written json7 stored]) ∧
  ∃ d info n stale c,
    dataset = JDict d ∧ d !! "download_info" = Some (JDict info) ∧
    count_entries (entries w dir7) = inr n ∧
    Py.lt_int (stored_count info) (n - 1) = inr stale ∧
    Py.getitem dataset "download" ≫= Py.len = inr c ∧
    dataset' = JDict (<["download_info" :=
                 JDict (<["total_URLS" := JInt c]>
                          (<["downloaded" :=
                              if stale : bool then JInt (n - 1) else stored_count info]>
                             (migrated info)))]> d) ∧
    (∀ n0, stored_count info = JInt n0 →
           download_info_field "downloaded" dataset' = Some (JInt (Z.max n0 (n - 1)))) ∧
    download_info_field "total_URLS" dataset' = Some (JInt c) ∧
    download_info_field "Downloaded" dataset' = None ∧
    (is_Some (info !! "Downloaded") →
     download_info_field "Total_URLS" dataset' = None).
Proof.
  intros legacy stored w dataset dataset' w'.
  split; [vm_compute; reflexivity|].
  split; [vm_compute; reflexivity|].
  split; [vm_compute; reflexivity|].
  apply (repair_writes_back_loaded count_entries dataset dir7 json7 w stored dataset' w');
    vm_compute; reflexivity.
Defined.
